(** * PyCOMPSs task-descriptor composition: core element and decorators

    A shallow embedding of
      - [pycompss/runtime/task/core_element.py]   (class [CE]),
      - [pycompss/api/mpi.py]                     (class [MPI]),
      - [pycompss/api/constraint.py]              (class [Constraint]),
      - [pycompss/api/data_transformation.py]     (class [DataTransformation]),
    together with the properties of the design document that concern them.

    Python objects that are mutated in place are modelled with explicit
    state: the decorator object ([self]) and the process-wide [World] are
    threaded through every wrapper.  An exception leaves the mutations made
    before it in place, so a computation has type
    [S -> (exn + A) * S] and not [S -> exn + A * S]. *)

From Stdlib Require Import String Ascii List ZArith Bool Lia DecimalString.
From stdpp Require Import base list.
Import ListNotations.

#[local] Open Scope string_scope.
#[local] Open Scope list_scope.

#[local] Set Warnings "-register-all".

(** ** Python values *)

(** Identifier of a Python function object (user functions are opaque). *)
Definition fid := nat.

Inductive pyval : Type :=
| PNone
| PEmpty                                  (* inspect.Parameter.empty *)
| PBool (b : bool)
| PInt (z : Z)
| PStr (s : string)
| PList (l : list pyval)
| PDict (d : list (string * pyval))
| PFun (f : fid)
| PDTObject (param_name : string) (func : fid)
            (func_kwargs : list (string * pyval))
| PRef (l : nat).                         (* reference to a CE object *)

(** A [dict] with [str] keys, in insertion order. *)
Abbreviation dict := (list (string * pyval)).

(** Positional arguments, [*args]. *)
Abbreviation tuple := (list pyval).

Inductive exn : Type :=
| Exception (msg : string)
| PyCOMPSsException (msg : string)
| NotImplementedError
| TypeError (msg : string)
| KeyError (key : string)
| AttributeError (msg : string).

(** ** Strings *)

Module Str.

(** [sub in s] of Python: [sub] occurs in [s]. *)
Fixpoint contains (sub s : string) : bool :=
  if String.prefix sub s then true
  else match s with
       | EmptyString => false
       | String _ s' => contains sub s'
       end.

(** [s.split(sep)[0]] for a non-empty [sep]: the part of [s] before the
    first occurrence of [sep], all of [s] when there is none. *)
Fixpoint split_head (sep s : string) : string :=
  if String.prefix sep s then EmptyString
  else match s with
       | EmptyString => EmptyString
       | String c s' => String c (split_head sep s')
       end.

(** ['.'.join(parts)]. *)
Definition join (sep : string) (parts : list string) : string :=
  String.concat sep parts.

Definition of_Z (z : Z) : string := NilZero.string_of_int (Z.to_int z).

End Str.

(** ** Dictionaries *)

Module Dict.

(** [k in d] *)
Fixpoint mem (k : string) (d : dict) : bool :=
  match d with
  | [] => false
  | (k', _) :: d' => if String.eqb k k' then true else mem k d'
  end.

(** [d.get(k)], [None] of Python being [None] here. *)
Fixpoint get (k : string) (d : dict) : option pyval :=
  match d with
  | [] => None
  | (k', v) :: d' => if String.eqb k k' then Some v else get k d'
  end.

(** [d[k]]: raises [KeyError] on a missing key. *)
Definition getitem (k : string) (d : dict) : exn + pyval :=
  match get k d with
  | Some v => inr v
  | None => inl (KeyError k)
  end.

(** [d[k] = v]: an existing key keeps its position, a new one goes last. *)
Fixpoint set (k : string) (v : pyval) (d : dict) : dict :=
  match d with
  | [] => [(k, v)]
  | (k', v') :: d' =>
      if String.eqb k k' then (k', v) :: d' else (k', v') :: set k v d'
  end.

(** [del d[k]], the state part of [d.pop(k)]. *)
Fixpoint remove (k : string) (d : dict) : dict :=
  match d with
  | [] => []
  | (k', v') :: d' =>
      if String.eqb k k' then d' else (k', v') :: remove k d'
  end.

(** [d.keys()] *)
Definition keys (d : dict) : list string := map fst d.

End Dict.

(** ** Computations with state and exceptions *)

Definition M (S A : Type) : Type := S -> (exn + A) * S.

Definition ret {S A} (a : A) : M S A := fun s => (inr a, s).

Definition raise {S A} (e : exn) : M S A := fun s => (inl e, s).

Definition bind {S A B} (m : M S A) (k : A -> M S B) : M S B :=
  fun s => match m s with
           | (inl e, s') => (inl e, s')
           | (inr a, s') => k a s'
           end.

Definition get {S} : M S S := fun s => (inr s, s).

Definition put {S} (s : S) : M S unit := fun _ => (inr tt, s).

Definition modify {S} (f : S -> S) : M S unit := fun s => (inr tt, f s).

(** A pure step that may raise. *)
Definition lift_exn {S A} (r : exn + A) : M S A := fun s => (r, s).

(** A computation on the second component of the state. *)
Definition on_snd {T S A} (m : M S A) : M (T * S) A :=
  fun '(t, s) => let '(r, s') := m s in (r, (t, s')).

(** A computation on the first component of the state. *)
Definition on_fst {T S A} (m : M T A) : M (T * S) A :=
  fun '(t, s) => let '(r, t') := m t in (r, (t', s)).

Declare Scope py_scope.
Delimit Scope py_scope with py.
Notation "'let*' x ':=' m 'in' k" := (bind m (fun x => k))
  (at level 10, x pattern, m at level 100, k at level 200) : py_scope.
Notation "'do' m 'then' k" := (bind m (fun _ => k))
  (at level 10, m at level 100, k at level 200) : py_scope.
#[local] Open Scope py_scope.

(** ** The core element ([core_element.py]) *)

Module CE.

(** [__slots__]: the six private attributes.  Python does not type them;
    [None] is [PNone]. *)
Record t : Type := mk {
  ceSignature : pyval;
  implSignature : pyval;
  implConstraints : pyval;
  implType : pyval;
  implIO : pyval;
  implTypeArgs : pyval
}.

(** [CE.__init__] with its keyword defaults. *)
Definition init (ce_signature impl_signature impl_constraints
                 impl_type impl_io impl_type_args : option pyval) : t :=
  let dflt o := match o with Some v => v | None => PNone end in
  mk (dflt ce_signature) (dflt impl_signature) (dflt impl_constraints)
     (dflt impl_type) (dflt impl_io) (dflt impl_type_args).

(** [CE()] *)
Definition new : t := init None None None None None None.

Definition reset (_ : t) : t :=
  mk PNone PNone PNone PNone PNone PNone.

Definition get_ce_signature (c : t) : pyval := ceSignature c.
Definition get_impl_signature (c : t) : pyval := implSignature c.
Definition get_impl_constraints (c : t) : pyval := implConstraints c.
Definition get_impl_type (c : t) : pyval := implType c.
Definition get_impl_io (c : t) : pyval := implIO c.
Definition get_impl_type_args (c : t) : pyval := implTypeArgs c.

Definition set_ce_signature (ce_signature : pyval) (c : t) : t :=
  mk ce_signature (implSignature c) (implConstraints c)
     (implType c) (implIO c) (implTypeArgs c).

Definition set_impl_signature (impl_signature : pyval) (c : t) : t :=
  mk (ceSignature c) impl_signature (implConstraints c)
     (implType c) (implIO c) (implTypeArgs c).

Definition set_impl_constraints (impl_constraints : pyval) (c : t) : t :=
  mk (ceSignature c) (implSignature c) impl_constraints
     (implType c) (implIO c) (implTypeArgs c).

Definition set_impl_type (impl_type : pyval) (c : t) : t :=
  mk (ceSignature c) (implSignature c) (implConstraints c)
     impl_type (implIO c) (implTypeArgs c).

Definition set_impl_io (impl_io : pyval) (c : t) : t :=
  mk (ceSignature c) (implSignature c) (implConstraints c)
     (implType c) impl_io (implTypeArgs c).

Definition set_impl_type_args (impl_type_args : pyval) (c : t) : t :=
  mk (ceSignature c) (implSignature c) (implConstraints c)
     (implType c) (implIO c) impl_type_args.

End CE.

(** ** Process-wide state *)

(** Modelled from the spec: the execution context of
    [pycompss/util/context.py], which is not part of the sources at hand
    (section 4.1: [inScope] is true iff the role is not UNSET; the names are
    the ones the callers use). *)
Inductive Context : Type := OUT_OF_SCOPE | MASTER | WORKER.

(** A region opened by [keep_arguments] and not closed yet. *)
Abbreviation region := (tuple * dict * bool)%type.

Record World : Type := mkWorld {
  context : Context;                  (* pycompss.util.context *)
  nesting : bool;                     (* CONTEXT.is_nesting_enabled() *)
  heap : list CE.t;                   (* CE objects, by reference *)
  current_core_element : CE.t;        (* pycompss.api.task.current_core_element *)
  SUPPORTED_ARGUMENTS : list string;  (* the module-level set of mpi.py *)
  regions : list region               (* open keep_arguments regions *)
}.

Definition in_pycompss (w : World) : bool :=
  match context w with OUT_OF_SCOPE => false | _ => true end.

Definition in_master (w : World) : bool :=
  match context w with MASTER => true | _ => false end.

Definition is_nesting_enabled (w : World) : bool := nesting w.

Definition set_pycompss_context (c : Context) (w : World) : World :=
  mkWorld c (nesting w) (heap w) (current_core_element w)
          (SUPPORTED_ARGUMENTS w) (regions w).

Definition set_heap (h : list CE.t) (w : World) : World :=
  mkWorld (context w) (nesting w) h (current_core_element w)
          (SUPPORTED_ARGUMENTS w) (regions w).

Definition set_current_core_element (c : CE.t) (w : World) : World :=
  mkWorld (context w) (nesting w) (heap w) c
          (SUPPORTED_ARGUMENTS w) (regions w).

Definition set_SUPPORTED_ARGUMENTS (s : list string) (w : World) : World :=
  mkWorld (context w) (nesting w) (heap w) (current_core_element w)
          s (regions w).

Definition set_regions (r : list region) (w : World) : World :=
  mkWorld (context w) (nesting w) (heap w) (current_core_element w)
          (SUPPORTED_ARGUMENTS w) r.

(** The task descriptors a wrapper can reach: the CE objects and the
    module-level core element of [pycompss.api.task]. *)
Definition descriptors (w : World) : list CE.t * CE.t :=
  (heap w, current_core_element w).

(** [s.add(k)] on a set kept as a duplicate-free list. *)
Definition set_add (k : string) (s : list string) : list string :=
  if existsb (String.eqb k) s then s else s ++ [k].

(** [a | b] *)
Definition set_union (a b : list string) : list string :=
  fold_left (fun acc k => set_add k acc) b a.

(** ** What the sources at hand import but do not contain *)

Class Externals : Type := {
  (** [pycompss.api.commons.decorator.CORE_ELEMENT_KEY] *)
  CORE_ELEMENT_KEY : string;
  (** [pycompss.api.commons.constants.LABELS.is_workflow] *)
  LABELS_is_workflow : string;
  (** [pycompss.api.commons.error_msgs.not_in_pycompss] *)
  not_in_pycompss : string -> string;
  (** [pycompss.util.arguments.check_arguments] *)
  check_arguments :
    list string -> list string -> list string -> list string -> string ->
    exn + unit;
  (** [PyCOMPSsDecorator.__process_computing_nodes__], on [self.kwargs] *)
  process_computing_nodes : string -> dict -> exn + dict;
  (** [PyCOMPSsDecorator.__resolve_working_dir__], on [self.kwargs] *)
  resolve_working_dir : dict -> dict;
  (** [PyCOMPSsDecorator.__resolve_fail_by_exit_value__], on [self.kwargs] *)
  resolve_fail_by_exit_value : dict -> exn + dict;
  (** [pycompss.api.commons.decorator.get_module] *)
  get_module : fid -> pyval;
  (** calling a function object: [f( *args, **kwargs)] *)
  call_fun : fid -> tuple -> dict -> M World pyval;
  (** [inspect.signature(f).parameters]: names with their defaults *)
  signature : fid -> list (string * pyval);
  (** [_transform], the function of [data_transformation.py] under its
      [@task(returns=object)] decorator *)
  transform_task : pyval -> pyval -> dict -> M World pyval;
  (** [str(v)] for the values whose text is not modelled below *)
  str_other : pyval -> string
}.

(** [str(v)] *)
Definition py_str `{E : Externals} (v : pyval) : string :=
  match v with
  | PNone => "None"
  | PBool true => "True"
  | PBool false => "False"
  | PInt z => Str.of_Z z
  | PStr s => s
  | _ => str_other v
  end.

(** ** Decorator objects *)

Module Self.

(** One record for the attributes of the three decorator classes:
    [decorator_name], [args], [kwargs], [scope], [core_element] and
    [core_element_configured] are the slots of [PyCOMPSsDecorator] and of
    [DataTransformation]; [registered] and [module] are what [Constraint]
    reads and writes; [task_type] is the slot of [MPI]; [user_function] is
    the slot of [DataTransformation]. *)
Record t : Type := mk {
  decorator_name : string;
  args : tuple;
  kwargs : dict;
  scope : bool;
  core_element : pyval;
  core_element_configured : bool;
  registered : bool;
  module : pyval;
  task_type : string;
  user_function : option fid
}.

Definition set_kwargs (k : dict) (d : t) : t :=
  mk (decorator_name d) (args d) k (scope d) (core_element d)
    (core_element_configured d) (registered d) (module d) (task_type d)
    (user_function d).

Definition set_core_element_configured (b : bool) (d : t) : t :=
  mk (decorator_name d) (args d) (kwargs d) (scope d)
    (core_element d) b (registered d) (module d) (task_type d)
    (user_function d).

Definition set_registered (b : bool) (d : t) : t :=
  mk (decorator_name d) (args d) (kwargs d) (scope d)
    (core_element d) (core_element_configured d) b (module d) (task_type d)
    (user_function d).

Definition set_module (m : pyval) (d : t) : t :=
  mk (decorator_name d) (args d) (kwargs d) (scope d)
    (core_element d) (core_element_configured d) (registered d) m
    (task_type d) (user_function d).

Definition set_task_type (ty : string) (d : t) : t :=
  mk (decorator_name d) (args d) (kwargs d) (scope d)
    (core_element d) (core_element_configured d) (registered d) (module d)
    ty (user_function d).

Definition set_user_function (f : option fid) (d : t) : t :=
  mk (decorator_name d) (args d) (kwargs d) (scope d)
    (core_element d) (core_element_configured d) (registered d) (module d)
    (task_type d) f.

End Self.

Abbreviation Decorator := Self.t.

(** Modelled from the spec: [PyCOMPSsDecorator.__init__] of
    [pycompss/api/commons/decorator.py], which is not part of the sources at
    hand.  It stores the declared options, reads the scope from the
    execution context and starts with the registration flag false
    (sections 3 and 4.2); [DataTransformation.__init__] does the same
    assignments itself. *)
Definition PyCOMPSsDecorator_init (decorator_name : string)
    (args : tuple) (kwargs : dict) (w : World) : Decorator :=
  Self.mk decorator_name args kwargs (in_pycompss w)
    PNone false false PNone EmptyString None.

(** The state of a wrapper call: the decorator object and the world. *)
Abbreviation St := (Self.t * World)%type.

Definition get_self : M St Decorator := fun s => (inr (fst s), s).
Definition get_world : M St World := fun s => (inr (snd s), s).
Definition modify_self (f : Decorator -> Decorator) : M St unit :=
  fun s => (inr tt, (f (fst s), snd s)).
Definition modify_world (f : World -> World) : M St unit :=
  fun s => (inr tt, (fst s, f (snd s))).

(** Modelled from the spec: [keep_arguments] of
    [pycompss/api/commons/decorator.py], which is not part of the sources at
    hand (section 4.5): a region is acquired, the body runs, and the region
    is released on every exit path, the body's result or exception being
    passed on. *)
Definition keep_arguments {A} (args : tuple) (kwargs : dict)
    (prepend_strings : bool) (body : M St A) : M St A :=
  fun s =>
    let acquire w := set_regions ((args, kwargs, prepend_strings) :: regions w) w in
    let release w := set_regions (tl (regions w)) w in
    let '(r, (d, w)) := body (fst s, acquire (snd s)) in
    (r, (d, release w)).

(** ** The [@mpi] decorator ([mpi.py]) *)

Module MPI.

Definition MANDATORY_ARGUMENTS : list string := ["runner"].

(** The set literal of the module, before any declaration extends it. *)
Definition SUPPORTED_ARGUMENTS_0 : list string :=
  ["binary"; "processes"; "working_dir"; "runner"; "flags";
   "scale_by_cu"; "fail_by_exit_value"].

Definition DEPRECATED_ARGUMENTS : list string :=
  ["computing_nodes"; "computingNodes"; "workingDir"].

(** The keys of the declared options that contain "_layout". *)
Definition layout_keys (kwargs : dict) : list string :=
  List.filter (Str.contains "_layout") (Dict.keys kwargs).

(** The exception that a call of [__resolve_collection_layout_params__]
    without an argument for [kwargs] raises. *)
Definition missing_kwargs : exn :=
  TypeError
    "__resolve_collection_layout_params__() missing 1 required positional argument: 'kwargs'".

Section WithExternals.
Context `{E : Externals}.

(** The loop of [__init__] over [self.kwargs.keys()]: counts the keys
    that contain "_layout" and adds each to [SUPPORTED_ARGUMENTS]. *)
Fixpoint count_layouts (keys : list string) (layout_nums : nat)
  : M World nat :=
  match keys with
  | [] => ret layout_nums
  | key :: keys' =>
      if Str.contains "_layout" key then
        do modify (fun w =>
             set_SUPPORTED_ARGUMENTS
               (set_add key (SUPPORTED_ARGUMENTS w)) w)
        then count_layouts keys' (S layout_nums)
      else count_layouts keys' layout_nums
  end.

(** [MPI.__init__]: the constructor either returns the decorator object
    or raises. *)
Definition __init__ (args : tuple) (kwargs : dict) : M World Decorator :=
  let* w := get in
  let decorator_name := "@mpi" in
  let self :=
    Self.set_task_type "mpi"
      (PyCOMPSsDecorator_init decorator_name args kwargs w) in
  if Self.scope self then
    let* layout_nums := count_layouts (Dict.keys (Self.kwargs self)) 0 in
    if (1 <? layout_nums)%nat then
      raise (Exception
               "More than one layout definition is not yet supported!")
    else
      let* w := get in
      let* _ := lift_exn
        (check_arguments MANDATORY_ARGUMENTS DEPRECATED_ARGUMENTS
           (set_union (SUPPORTED_ARGUMENTS w) DEPRECATED_ARGUMENTS)
           (Dict.keys kwargs) decorator_name) in
      let* kw := lift_exn
        (process_computing_nodes decorator_name (Self.kwargs self)) in
      let kw :=
        if negb (Dict.mem "processes" kw)
        then Dict.set "processes" (PInt 1) kw else kw in
      ret (Self.set_kwargs kw self)
  else ret self.

(** [v == -1] *)
Definition is_minus_one (v : pyval) : bool :=
  match v with PInt z => Z.eqb z (-1) | _ => false end.

(** [collection_layout[k] if k in collection_layout else -1], for the
    kinds of value [collection_layout] can be. *)
Definition layout_field (k : string) (collection_layout : pyval)
  : exn + pyval :=
  match collection_layout with
  | PDict d =>
      match Dict.get k d with
      | Some v => inr v
      | None => inr (PInt (-1))
      end
  | PStr s =>
      if Str.contains k s
      then inl (TypeError "string indices must be integers")
      else inr (PInt (-1))
  | PList l =>
      if existsb (fun v => match v with
                           | PStr s => String.eqb s k
                           | _ => false
                           end) l
      then inl (TypeError "list indices must be integers or slices, not str")
      else inr (PInt (-1))
  | _ => inl (TypeError "argument is not iterable")
  end.

(** The loop of [__resolve_collection_layout_params__] over
    [self.kwargs.items()]. *)
Fixpoint layout_items (items : dict)
    (acc : string * pyval * pyval * pyval)
  : M St (string * pyval * pyval * pyval) :=
  match items with
  | [] => ret acc
  | (key, value) :: items' =>
      if Str.contains "_layout" key then
        let param_name := Str.split_head "_layout" key in
        let collection_layout := value in
        let* block_count :=
          lift_exn (layout_field "block_count" collection_layout) in
        let* block_length :=
          lift_exn (layout_field "block_length" collection_layout) in
        let* stride :=
          lift_exn (layout_field "stride" collection_layout) in
        if (negb (is_minus_one block_length) && is_minus_one block_count)
           || (negb (is_minus_one stride) && is_minus_one block_count)
        then raise (Exception
                      "Error: collection_layout must contain block_count!")
        else layout_items items'
               (param_name, block_count, block_length, stride)
      else layout_items items' acc
  end.

(** Binding the actual arguments of a call to the one parameter
    ([kwargs]) that [__resolve_collection_layout_params__] declares
    after [self]. *)
Definition bind_parameters (actuals : list dict) : exn + dict :=
  match actuals with
  | [kwargs] => inr kwargs
  | [] => inl missing_kwargs
  | _ =>
      inl (TypeError
             "__resolve_collection_layout_params__() takes 2 positional arguments but more were given")
  end.

(** [MPI.__resolve_collection_layout_params__(self, kwargs)], applied
    to the arguments of a call. *)
Definition __resolve_collection_layout_params__ (actuals : list dict)
  : M St (list pyval) :=
  let* _ := lift_exn (bind_parameters actuals) in
  let* self := get_self in
  let* (param_name, block_count, block_length, stride) :=
    layout_items (Self.kwargs self)
      (EmptyString, PInt (-1), PInt (-1), PInt (-1)) in
  ret [PStr param_name; PStr (py_str block_count);
       PStr (py_str block_length); PStr (py_str stride)].

(** [kwargs[CORE_ELEMENT_KEY].m(v)] for a setter [m] of [CE]. *)
Definition call_setter (kwargs : dict)
    (setter : pyval -> CE.t -> CE.t) (v : pyval) : M St unit :=
  let* w := get_world in
  match Dict.get CORE_ELEMENT_KEY kwargs with
  | Some (PRef l) =>
      match heap w !! l with
      | Some ce => modify_world (set_heap (<[l := setter v ce]> (heap w)))
      | None => raise (AttributeError "dangling reference")
      end
  | _ => raise (AttributeError "object has no such attribute")
  end.

(** [MPI.__configure_core_element__(self, kwargs)]; returns the
    [kwargs] of the call as it leaves them. *)
Definition __configure_core_element__ (kwargs : dict) : M St dict :=
  let* self := get_self in
  let* (binary, impl_type) :=
    (if Dict.mem "binary" (Self.kwargs self) then
       let* binary := lift_exn (Dict.getitem "binary" (Self.kwargs self)) in
       ret (binary, "MPI")
     else
       do modify_self (Self.set_task_type "PYTHON_MPI")
       then ret (PStr "[unassigned]", "PYTHON_MPI")) in
  let* runner := lift_exn (Dict.getitem "runner" (Self.kwargs self)) in
  let flags :=
    match Dict.get "flags" (Self.kwargs self) with
    | Some flags => flags
    | None => PStr "[unassigned]"
    end in
  let* scale_by_cu_str :=
    match Dict.get "scale_by_cu" (Self.kwargs self) with
    | Some (PBool scale_by_cu) =>
        ret (if scale_by_cu then "true" else "false")
    | Some (PStr scale_by_cu) => ret scale_by_cu
    | Some _ =>
        raise (Exception
                 "Incorrect format for scale_by_cu property. It should be boolean or an environment variable")
    | None => ret "false"
    end in
  do modify_self (fun self =>
       Self.set_kwargs (resolve_working_dir (Self.kwargs self)) self)
  then
  let* self := get_self in
  let* kw := lift_exn (resolve_fail_by_exit_value (Self.kwargs self)) in
  do modify_self (Self.set_kwargs kw) then
  let* collection_layout_params :=
    __resolve_collection_layout_params__ [] in
  let* self := get_self in
  let* impl_signature :=
    match binary with
    | PStr "[unassigned]" => ret (impl_type ++ ".")%string
    | PStr binary =>
        let* processes :=
          lift_exn (Dict.getitem "processes" (Self.kwargs self)) in
        ret (Str.join "." [impl_type; py_str processes; binary])
    | _ =>
        let* _ := lift_exn (Dict.getitem "processes" (Self.kwargs self)) in
        raise (TypeError "sequence item 2: expected str instance")
    end in
  let* working_dir :=
    lift_exn (Dict.getitem "working_dir" (Self.kwargs self)) in
  let* fail_by_exit_value :=
    lift_exn (Dict.getitem "fail_by_exit_value" (Self.kwargs self)) in
  let impl_args :=
    [binary; working_dir; runner; flags; PStr scale_by_cu_str;
     fail_by_exit_value] ++ collection_layout_params in
  let* kwargs :=
    (if Dict.mem CORE_ELEMENT_KEY kwargs then
       do call_setter kwargs CE.set_impl_type (PStr impl_type) then
       do call_setter kwargs CE.set_impl_signature (PStr impl_signature) then
       do call_setter kwargs CE.set_impl_type_args (PList impl_args) then
       ret kwargs
     else
       let core_element :=
         CE.set_impl_type_args (PList impl_args)
           (CE.set_impl_signature (PStr impl_signature)
              (CE.set_impl_type (PStr impl_type) CE.new)) in
       let* w := get_world in
       let l := length (heap w) in
       do modify_world (set_heap (heap w ++ [core_element])) then
       ret (Dict.set CORE_ELEMENT_KEY (PRef l) kwargs)) in
  do modify_self (Self.set_core_element_configured true) then
  ret kwargs.

(** The wrapper [mpi_f] that [MPI.__call__(func)] returns. *)
Definition mpi_f (func : fid) (args : tuple) (kwargs : dict)
  : M St pyval :=
  let* self := get_self in
  if negb (Self.scope self) then
    raise (Exception (not_in_pycompss "mpi"))
  else
    let* w := get_world in
    let* kwargs :=
      (if in_master w then
         if negb (Self.core_element_configured self)
         then __configure_core_element__ kwargs
         else ret kwargs
       else ret kwargs) in
    let* self := get_self in
    let* processes :=
      lift_exn (Dict.getitem "processes" (Self.kwargs self)) in
    let kwargs := Dict.set "computing_nodes" processes kwargs in
    let prepend_strings := String.eqb (Self.task_type self) "PYTHON_MPI" in
    keep_arguments args kwargs prepend_strings
      (on_snd (call_fun func args kwargs)).

End WithExternals.

End MPI.

(** ** The [@constraint] decorator ([constraint.py]) *)

Module Constraint.

Section WithExternals.
Context `{E : Externals}.

(** [Constraint.__init__]: the base constructor and nothing else. *)
Definition __init__ (args : tuple) (kwargs : dict) : M World Decorator :=
  let* w := get in
  ret (PyCOMPSsDecorator_init "@constraint" args kwargs w).

(** Modelled from the spec: the wrapper that the decorator of
    [pycompss/api/dummy/constraint.py] returns; that module is not part
    of the sources at hand (section 4.2, step 1: the no-op variant of
    the annotation, under which the wrapped function still executes
    locally and its result is returned directly). *)
Definition dummy_constraint (d_args : tuple) (d_kwargs : dict)
    (func : fid) (args : tuple) (kwargs : dict) : M St pyval :=
  on_snd (call_fun func args kwargs).

(** The master branch of [constrained_f]. *)
Definition register (func : fid) : M St unit :=
  do modify_self (Self.set_module (get_module func)) then
  let* self := get_self in
  if negb (Self.registered self) then
    do modify_world (fun w =>
         set_current_core_element
           (CE.set_impl_constraints (PDict (Self.kwargs self))
              (current_core_element w)) w)
    then modify_self (Self.set_registered true)
  else ret tt.

(** The wrapper [constrained_f] that [Constraint.__call__(func)]
    returns. *)
Definition constrained_f (func : fid) (args : tuple) (kwargs : dict)
  : M St pyval :=
  let* self := get_self in
  if negb (Self.scope self) then
    dummy_constraint (Self.args self) (Self.kwargs self) func args kwargs
  else
    let* w := get_world in
    do (if in_master w then register func else ret tt) then
    keep_arguments args kwargs true
      (on_snd (call_fun func args kwargs)).

End WithExternals.

End Constraint.

(** ** The data transformation decorator ([data_transformation.py]) *)

Module DataTransformation.

Definition MANDATORY_ARGUMENTS : list string := [].
Definition SUPPORTED_ARGUMENTS : list string := [].
Definition DEPRECATED_ARGUMENTS : list string := [].

(** Where the [func_kwargs] of a transformation live: in [self.kwargs]
    (the tuple built from the decorator's own arguments holds that very
    dictionary, so what [_apply_dt] pops from it is gone from the decorator
    object too) or in the dictionary of a [DTObject].  A [DTObject] is
    kept by value: it reaches the wrapper through the [dt] keyword, which
    [__call_dt__] pops, and what the caller's object looks like afterwards
    is outside the state modelled here. *)
Inductive kwargs_ref : Type :=
| OfSelf
| OfObject (func_kwargs : dict).

(** An element of [dts]: parameter name, function, keyword arguments. *)
Definition dt_entry : Type := pyval * pyval * kwargs_ref.

(** [list(keyz).index(param_name)] *)
Fixpoint index (k : string) (keys : list string) : option nat :=
  match keys with
  | [] => None
  | k' :: keys' =>
      if String.eqb k' k then Some 0%nat
      else option_map S (index k keys')
  end.

(** [v in [True, "True", "true", 1, "1"]] *)
Definition is_workflow_value (v : pyval) : bool :=
  match v with
  | PBool b => b
  | PInt z => Z.eqb z 1
  | PStr s => existsb (String.eqb s) ["True"; "true"; "1"]
  | _ => false
  end.

(** The [str] key a value stands for when it is looked up in a
    dictionary with [str] keys: lists and dictionaries cannot be hashed,
    and no other value equals a [str]. *)
Definition as_key (v : pyval) : exn + option string :=
  match v with
  | PStr s => inr (Some s)
  | PList _ | PDict _ => inl (TypeError "unhashable type")
  | _ => inr None
  end.

Section WithExternals.
Context `{E : Externals}.

(** [DataTransformation.__init__] *)
Definition __init__ (args : tuple) (kwargs : dict) : M World Decorator :=
  let* w := get in
  let decorator_name := "@datatransformation" in
  let self :=
    Self.mk decorator_name args kwargs (in_pycompss w)
      PNone false false PNone EmptyString None in
  if Self.scope self then
    let* _ := lift_exn
      (check_arguments MANDATORY_ARGUMENTS DEPRECATED_ARGUMENTS
         (set_union SUPPORTED_ARGUMENTS DEPRECATED_ARGUMENTS)
         (Dict.keys kwargs) decorator_name) in
    ret self
  else ret self.

(** [DTObject.extract] on each element of a list. *)
Fixpoint extract_all (objs : list pyval) : exn + list dt_entry :=
  match objs with
  | [] => inr []
  | PDTObject param_name func func_kwargs :: objs' =>
      match extract_all objs' with
      | inr dts =>
          inr ((PStr param_name, PFun func, OfObject func_kwargs) :: dts)
      | inl e => inl e
      end
  | _ :: _ => inl (AttributeError "object has no attribute 'extract'")
  end.

(** [func(p_value, **func_kwargs)] *)
Definition call_value (func : pyval) (args : tuple) (kwargs : dict)
  : M St pyval :=
  match func with
  | PFun f => on_snd (call_fun f args kwargs)
  | _ => raise (TypeError "object is not callable")
  end.

(** [DataTransformation._apply_dt]; returns the positional and keyword
    arguments of the call as it leaves them. *)
Definition _apply_dt (param_name func : pyval) (func_kwargs : kwargs_ref)
    (args : tuple) (kwargs : dict) : M St (tuple * dict) :=
  let* self := get_self in
  let fkw :=
    match func_kwargs with
    | OfSelf => Self.kwargs self
    | OfObject d => d
    end in
  let* (is_workflow, fkw) :=
    match Dict.get LABELS_is_workflow fkw with
    | Some v =>
        let fkw := Dict.remove LABELS_is_workflow fkw in
        do match func_kwargs with
           | OfSelf => modify_self (Self.set_kwargs fkw)
           | OfObject _ => ret tt
           end
        then ret (is_workflow_value v, fkw)
    | None => ret (false, fkw)
    end in
  let* key := lift_exn (as_key param_name) in
  let is_kwarg :=
    match key with Some k => Dict.mem k kwargs | None => false end in
  let* (p_value, i) :=
    match key with
    | Some k =>
        if is_kwarg then
          ret (match Dict.get k kwargs with Some v => v | None => PNone end,
               None)
        else
          let* self := get_self in
          let all_params :=
            match Self.user_function self with
            | Some f => signature f
            | None => []
            end in
          let keyz := Dict.keys all_params in
          match index k keyz with
          | None => raise (Exception "Wrong Param Name in DT")
          | Some i =>
              match args !! i with
              | Some v => ret (v, Some i)
              | None =>
                  ret (match Dict.get k all_params with
                       | Some v => v
                       | None => PNone
                       end, Some i)
              end
          end
    | None => raise (Exception "Wrong Param Name in DT")
    end in
  let* new_value :=
    (if is_workflow then call_value func [p_value] fkw
     else on_snd (transform_task p_value func fkw)) in
  match key, i with
  | Some k, Some i =>
      if (i <? length args)%nat
      then ret (<[i := new_value]> args, kwargs)
      else ret (args, Dict.set k new_value kwargs)
  | Some k, None => ret (args, Dict.set k new_value kwargs)
  | None, _ => ret (args, kwargs)
  end.

(** [for _dt in dts: self._apply_dt(...)] *)
Fixpoint apply_all (dts : list dt_entry) (args : tuple) (kwargs : dict)
  : M St (tuple * dict) :=
  match dts with
  | [] => ret (args, kwargs)
  | (param_name, func, func_kwargs) :: dts' =>
      let* (args, kwargs) :=
        _apply_dt param_name func func_kwargs args kwargs in
      apply_all dts' args kwargs
  end.

(** [DataTransformation.__call_dt__] *)
Definition __call_dt__ (user_function : fid) (args : tuple)
    (kwargs : dict) : M St (tuple * dict) :=
  do modify_self (Self.set_user_function (Some user_function)) then
  let* (dts, kwargs) :=
    (if (length args =? 0)%nat then
       raise (PyCOMPSsException "Missing arguments in DT decorator.")
     else
       match Dict.get "dt" kwargs with
       | Some tmp =>
           let kwargs := Dict.remove "dt" kwargs in
           match tmp with
           | PDTObject param_name func func_kwargs =>
               ret ([(PStr param_name, PFun func, OfObject func_kwargs)],
                    kwargs)
           | PList objs =>
               let* dts := lift_exn (extract_all objs) in
               ret (dts, kwargs)
           | _ => ret ([], kwargs)
           end
       | None =>
           let* self := get_self in
           match Self.args self with
           | a0 :: a1 :: _ => ret ([(a0, a1, OfSelf)], kwargs)
           | _ =>
               raise (PyCOMPSsException
                        "Missing arguments in DT decorator.")
           end
       end) in
  apply_all dts args kwargs.

(** The wrapper [dt_f] that [DataTransformation.__call__] returns. *)
Definition dt_f (user_function : fid) (args : tuple) (kwargs : dict)
  : M St pyval :=
  let* self := get_self in
  if negb (Self.scope self) then raise NotImplementedError
  else
    let tmp := args in
    let* w := get_world in
    let* (tmp, kwargs) :=
      (if (in_master w || is_nesting_enabled w)
          && negb (Self.core_element_configured self)
       then __call_dt__ user_function tmp kwargs
       else ret (tmp, kwargs)) in
    keep_arguments tmp kwargs true
      (on_snd (call_fun user_function tmp kwargs)).

End WithExternals.

End DataTransformation.

(** ** Annotation variants and repeated calls *)

Inductive variant : Type := ResourceConstraint | MPIParallel | DataTransformationV.

(** The wrapper that each decorator returns for a function. *)
Definition wrapper `{E : Externals} (v : variant) (func : fid)
  : tuple -> dict -> M St pyval :=
  match v with
  | ResourceConstraint => Constraint.constrained_f func
  | MPIParallel => MPI.mpi_f func
  | DataTransformationV => DataTransformation.dt_f func
  end.

(** The constructor of each decorator. *)
Definition declare `{E : Externals} (v : variant)
  : tuple -> dict -> M World Decorator :=
  match v with
  | ResourceConstraint => Constraint.__init__
  | MPIParallel => MPI.__init__
  | DataTransformationV => DataTransformation.__init__
  end.

(** The state after a sequence of calls of one wrapped function, whether
    each call returns or raises. *)
Fixpoint run_calls (wrapped : tuple -> dict -> M St pyval)
    (calls : list (tuple * dict)) (s : St) : St :=
  match calls with
  | [] => s
  | (args, kwargs) :: calls' => run_calls wrapped calls' (snd (wrapped args kwargs s))
  end.

(** The six getters of a core element, in the order of [__slots__]. *)
Definition getters (c : CE.t) : list pyval :=
  [CE.get_ce_signature c; CE.get_impl_signature c; CE.get_impl_constraints c;
   CE.get_impl_type c; CE.get_impl_io c; CE.get_impl_type_args c].

(** A computation that writes no task descriptor and leaves the execution
    context as it is. *)
Definition frames {A} (m : M World A) : Prop :=
  forall w, descriptors (snd (m w)) = descriptors w
            /\ context (snd (m w)) = context w.

(** The same for a wrapper, which also carries the decorator object. *)
Definition frames_st {A} (m : M St A) : Prop :=
  forall s, descriptors (snd (snd (m s))) = descriptors (snd s)
            /\ context (snd (snd (m s))) = context (snd s).

(** User code that does not touch the descriptors: the functions called and
    the transformation task. *)
Definition user_code_frames `{E : Externals} : Prop :=
  (forall f args kwargs, frames (call_fun f args kwargs))
  /\ (forall p g kwargs, frames (transform_task p g kwargs)).

(** ** The substitution a data transformation makes, in the words of the
    design document *)

Module Substitution.

(** The current value of the named parameter: by keyword, else by
    position, else the declared default. *)
Definition locate (x : string) (params : list (string * pyval))
    (args : tuple) (kwargs : dict) : option pyval :=
  match Dict.get x kwargs with
  | Some v => Some v
  | None =>
      match DataTransformation.index x (Dict.keys params) with
      | Some i =>
          match args !! i with
          | Some v => Some v
          | None => Dict.get x params
          end
      | None => None
      end
  end.

(** The arguments with the value of the named parameter replaced, where
    it was found; a default is replaced by keyword. *)
Definition substitute (x : string) (params : list (string * pyval))
    (args : tuple) (kwargs : dict) (new_value : pyval) : tuple * dict :=
  if Dict.mem x kwargs then (args, Dict.set x new_value kwargs)
  else
    match DataTransformation.index x (Dict.keys params) with
    | Some i =>
        if (i <? length args)%nat
        then (<[i := new_value]> args, kwargs)
        else (args, Dict.set x new_value kwargs)
    | None => (args, kwargs)
    end.

Section WithExternals.
Context `{E : Externals}.

(** Whether the transformation is flagged as a workflow step. *)
Definition is_workflow (func_kwargs : dict) : bool :=
  match Dict.get LABELS_is_workflow func_kwargs with
  | Some v => DataTransformation.is_workflow_value v
  | None => false
  end.

(** The keyword arguments of the transformation, the flag apart. *)
Definition without_flag (func_kwargs : dict) : dict :=
  match Dict.get LABELS_is_workflow func_kwargs with
  | Some _ => Dict.remove LABELS_is_workflow func_kwargs
  | None => func_kwargs
  end.

(** The transformation [g] of a value: applied in process for a
    workflow step, submitted as a task otherwise. *)
Definition transformed (g : pyval) (func_kwargs : dict) (p_value : pyval)
  : M St pyval :=
  if is_workflow func_kwargs
  then DataTransformation.call_value g [p_value] (without_flag func_kwargs)
  else on_snd (transform_task p_value g (without_flag func_kwargs)).

(** The wrapped function called on the arguments with the transformed
    value in place of the original one. *)
Definition substituted_call (x : string) (g : pyval) (func_kwargs : dict)
    (f : fid) (args : tuple) (kwargs : dict) (p_value : pyval)
  : M St pyval :=
  let* new_value := transformed g func_kwargs p_value in
  let (args', kwargs') :=
    substitute x (signature f) args kwargs new_value in
  keep_arguments args' kwargs' true (on_snd (call_fun f args' kwargs')).

(** The decorator object after a call: the wrapped function recorded,
    the flag gone from its keyword arguments. *)
Definition after_call (f : fid) (self : Decorator) : Decorator :=
  let self := Self.set_user_function (Some f) self in
  match Dict.get LABELS_is_workflow (Self.kwargs self) with
  | Some _ => Self.set_kwargs (without_flag (Self.kwargs self)) self
  | None => self
  end.

End WithExternals.

End Substitution.

(** ** A concrete environment *)

Module Sample.

(** Functions: [0], [2] and [3] return what they receive; any other adds
    one to its first argument. *)
Definition call (f : fid) (args : tuple) (kwargs : dict) : M World pyval :=
  match f with
  | 0%nat | 2%nat | 3%nat => ret (PList [PList args; PDict kwargs])
  | _ =>
      match args with
      | PInt z :: _ => ret (PInt (z + 1))
      | _ => raise (TypeError "unsupported operand")
      end
  end.

(** [def f0(x)], [def f2(a, **kw)], [def f3(a, x=7)], [def g(data)]. *)
Definition sig (f : fid) : list (string * pyval) :=
  match f with
  | 0%nat => [("x", PEmpty)]
  | 2%nat => [("a", PEmpty); ("kw", PEmpty)]
  | 3%nat => [("a", PEmpty); ("x", PInt 7)]
  | _ => [("data", PEmpty)]
  end.

Definition default (k : string) (v : pyval) (d : dict) : dict :=
  if Dict.mem k d then d else Dict.set k v d.

#[export] Instance externals : Externals := {|
  CORE_ELEMENT_KEY := "compss_core_element";
  LABELS_is_workflow := "is_workflow";
  not_in_pycompss := fun name => ("The " ++ name ++ " decorator is not in PyCOMPSs scope")%string;
  check_arguments := fun mandatory _ _ keys _ =>
    if forallb (fun m => existsb (String.eqb m) keys) mandatory
    then inr tt else inl (PyCOMPSsException "missing mandatory argument");
  process_computing_nodes := fun _ kw => inr (default "computing_nodes" (PInt 1) kw);
  resolve_working_dir := default "working_dir" (PStr "[unassigned]");
  resolve_fail_by_exit_value := fun kw => inr (default "fail_by_exit_value" (PStr "true") kw);
  get_module := fun _ => PStr "__main__";
  call_fun := call;
  signature := sig;
  transform_task := fun p g kw =>
    match g with
    | PFun f => call f [p] kw
    | _ => raise (TypeError "object is not callable")
    end;
  str_other := fun _ => "<object>"
|}.

Definition world (c : Context) : World :=
  mkWorld c false [] CE.new MPI.SUPPORTED_ARGUMENTS_0 [].

(** The object that [@mpi(runner="mpirun")] leaves when the master
    declares it. *)
Definition mpi_self : Decorator :=
  Self.mk "@mpi" []
    [("runner", PStr "mpirun"); ("computing_nodes", PInt 1);
     ("processes", PInt 1)]
    true PNone false false PNone "mpi" None.

(** Its options once the working directory and the exit-value policy
    are resolved. *)
Definition mpi_resolved : dict :=
  [("runner", PStr "mpirun"); ("computing_nodes", PInt 1);
   ("processes", PInt 1); ("working_dir", PStr "[unassigned]");
   ("fail_by_exit_value", PStr "true")].

(** A decorator object declared in scope, not yet configured. *)
Definition decorator (name : string) (args : tuple) (kwargs : dict)
  : Decorator :=
  Self.mk name args kwargs true PNone false false PNone EmptyString None.

(** The object that [@dt("x", g)] leaves when the master declares it. *)
Definition dt_self : Decorator :=
  decorator "@datatransformation" [PStr "x"; PFun 1%nat] [].

(** The object that [@dt("y", g)] leaves when the master declares it. *)
Definition dt_self_y : Decorator :=
  decorator "@datatransformation" [PStr "y"; PFun 1%nat] [].

End Sample.


(** ** Kinds of value the wrappers test for *)

(** [isinstance(v, DTObject)] *)
Definition is_DTObject (v : pyval) : bool :=
  match v with PDTObject _ _ _ => true | _ => false end.

(** [isinstance(v, list)] *)
Definition is_list (v : pyval) : bool :=
  match v with PList _ => true | _ => false end.

(** A computation that, started with the decorator object [d], ends with
    the decorator object [d'], whether it returns or raises. *)
Definition self_at {A} (d d' : Self.t) (m : M St A) : Prop :=
  forall w : World, fst (snd (m (d, w))) = d'.

(** The decorator object after [_apply_dt] has read the workflow flag of
    the decorator's own keyword arguments. *)
Definition flag_popped `{E : Externals} (self : Self.t) : Self.t :=
  match Dict.get LABELS_is_workflow (Self.kwargs self) with
  | Some _ =>
      Self.set_kwargs (Dict.remove LABELS_is_workflow (Self.kwargs self)) self
  | None => self
  end.

(** ** The layout of a collection parameter *)

(** [collection_layout[k] if k in collection_layout else -1] on a
    dictionary. *)
Definition layout_value (k : string) (collection_layout : dict) : pyval :=
  match Dict.get k collection_layout with
  | Some v => v
  | None => PInt (-1)
  end.

(** The test of [__resolve_collection_layout_params__] on the three values
    of a layout: a block length or a stride without a block count. *)
Definition layout_incomplete (block_count block_length stride : pyval)
  : bool :=
  (negb (MPI.is_minus_one block_length) && MPI.is_minus_one block_count)
  || (negb (MPI.is_minus_one stride) && MPI.is_minus_one block_count).

(** [isinstance(v, bool)] *)
Definition is_bool (v : pyval) : bool :=
  match v with PBool _ => true | _ => false end.

(** [isinstance(v, str)] *)
Definition is_str (v : pyval) : bool :=
  match v with PStr _ => true | _ => false end.

(** ** The text of a core element ([CE.__repr__]) *)



Module CEText.


Section WithExternals.
Context `{E : Externals}.



End WithExternals.

End CEText.

(** ** Text functions of Python used by the remote client

    A character is a code point below 256. *)

Module Text.

(** [s.split(sep)] for a separator of one character. *)
Fixpoint split (sep : ascii) (s : string) : list string :=
  match s with
  | EmptyString => [EmptyString]
  | String c s' =>
      if Ascii.eqb c sep then EmptyString :: split sep s'
      else match split sep s' with
           | h :: t => String c h :: t
           | [] => [String c EmptyString]
           end
  end.

(** [c.isspace()] *)
Definition is_space (c : ascii) : bool :=
  let n := nat_of_ascii c in
  ((9 <=? n) && (n <=? 13) || (28 <=? n) && (n <=? 32)
   || (n =? 133) || (n =? 160))%nat.

(** [s.lstrip()] *)
Fixpoint lstrip (s : string) : string :=
  match s with
  | EmptyString => EmptyString
  | String c s' => if is_space c then lstrip s' else s
  end.

(** [s.rstrip()], and [s.rstrip(chars)] through the test [drop]. *)
Fixpoint rstrip_with (drop : ascii -> bool) (s : string) : string :=
  match s with
  | EmptyString => EmptyString
  | String c s' =>
      match rstrip_with drop s' with
      | EmptyString => if drop c then EmptyString else String c EmptyString
      | r => String c r
      end
  end.

(** [s.strip()] *)
Definition strip (s : string) : string := rstrip_with is_space (lstrip s).

(** Whether a character ends a line for [splitlines]. *)
Definition is_line_boundary (c : ascii) : bool :=
  let n := nat_of_ascii c in
  ((10 <=? n) && (n <=? 13) || (28 <=? n) && (n <=? 30) || (n =? 133))%nat.

(** [s.splitlines()], with the line being read in [line] (reversed). *)
Fixpoint splitlines_from (s : string) (line : list ascii) : list string :=
  match s with
  | EmptyString =>
      match line with
      | [] => []
      | _ => [string_of_list_ascii (rev line)]
      end
  | String c s' =>
      if is_line_boundary c then
        string_of_list_ascii (rev line)
          :: match s' with
             | String c' s'' =>
                 if ((nat_of_ascii c =? 13) && (nat_of_ascii c' =? 10))%nat
                 then splitlines_from s'' []
                 else splitlines_from s' []
             | EmptyString => []
             end
      else splitlines_from s' (c :: line)
  end.

Definition splitlines (s : string) : list string := splitlines_from s [].

(** [p[:p.rfind('/') + 1]] *)
Fixpoint head_of_path (p : string) : string :=
  match p with
  | EmptyString => EmptyString
  | String c p' =>
      match head_of_path p' with
      | EmptyString =>
          if Ascii.eqb c "/" then String c EmptyString else EmptyString
      | h => String c h
      end
  end.

(** Whether a string is made of '/' only. *)
Fixpoint all_slashes (s : string) : bool :=
  match s with
  | EmptyString => true
  | String c s' => Ascii.eqb c "/" && all_slashes s'
  end.

(** [os.path.dirname(p)] of [posixpath]. *)
Definition dirname (p : string) : string :=
  let head := head_of_path p in
  if negb (String.eqb head EmptyString) && negb (all_slashes head)
  then rstrip_with (fun c => Ascii.eqb c "/") head
  else head.

(** [c in s] for a character. *)
Fixpoint has_char (c : ascii) (s : string) : bool :=
  match s with
  | EmptyString => false
  | String c' s' => Ascii.eqb c' c || has_char c s'
  end.

(** [l[-1]], [None] standing for [IndexError]. *)
Definition last_item {A} (l : list A) : option A := List.last (map Some l) None.

(** [l[:-n]] *)
Definition drop_last {A} (n : nat) (l : list A) : list A :=
  firstn (length l - n) l.

End Text.

(** ** The remote client ([interactive_sc/core.py]) *)

Module Remote.

Inductive error : Type :=
| SystemExit (code : Z)
| IndexError
| TypeError
| NotImplemented.                         (* NotImplementedError *)

(** What [subprocess.Popen] is given: a command line, or a list. *)
Inductive command : Type :=
| Line (cmd : string)
| Words (cmd : list string).

(** What [interactive_sc/defaults.py], which is not part of the sources at
    hand, and the operating system provide. *)
Class Defaults : Type := {
  INTERPRETER : string;
  STATUS_SCRIPT : string;
  FIND_SCRIPT : string;
  CANCEL_SCRIPT : string;
  SUCCESS_KEYWORD : string;
  ERROR_CONNECTING : string;
  ERROR_COMPSS_NOT_DEFINED : string;
  ERROR_STATUS_JOB : string;
  ERROR_CANCELLING_JOB : string;
  is_windows : bool;
  (** the state of the machines the commands run on *)
  System : Type;
  (** [Popen(cmd, shell=True, ...).communicate()], outputs decoded: return
      code, standard output, standard error *)
  communicate : command -> System -> (Z * string * string) * System;
  (** [Popen(cmd, shell=True, ...)] left running: its handle *)
  spawn : command -> System -> nat * System
}.

Section WithDefaults.
Context `{D : Defaults}.

(** What the client has printed, the processes it left running, and the
    machines. *)
Record Terminal : Type := mkTerminal {
  printed : list string;
  ALIVE_PROCESSES : list nat;
  system : System
}.

Definition R (A : Type) : Type := Terminal -> (error + A) * Terminal.

(** [print(line)] *)
Definition print (line : string) (t : Terminal) : Terminal :=
  mkTerminal (printed t ++ [line]) (ALIVE_PROCESSES t) (system t).

(** [__display_error]: never returns. *)
Definition __display_error {A} (message : string) (stderr : option string)
  : R A :=
  fun t =>
    let t :=
      match stderr with
      | Some (String c e) =>
          print (String c e) (print "Standard ERROR:" t)
      | _ => t
      end in
    (inl (SystemExit 1), print ("ERROR: " ++ message) t).

(** [__display_warning] *)
Definition __display_warning (message : string) : R unit :=
  fun t => (inr tt, print ("WARNING: " ++ message) t).

(** The command line [_command_runner] builds for a remote run. *)
Definition remote_line (cmd : list string) (login_info : string)
    (modules_path : option string) : string :=
  let cmd := String.concat " " cmd in
  let cmd :=
    match modules_path with
    | Some (String c m) => ("'" ++ String c m ++ ";" ++ cmd ++ "'")%string
    | _ => cmd
    end in
  ("ssh " ++ login_info ++ " " ++ cmd)%string.

(** [_command_runner]: the return code and the outputs of a blocking run,
    nothing of a run left in the background. *)
Definition _command_runner (cmd : list string) (login_info : string)
    (modules_path : option string) (blocking remote : bool)
  : R (option (Z * string * string)) :=
  fun t =>
    match
      (if remote then
         if is_windows then inl NotImplemented
         else
           let line := remote_line cmd login_info modules_path in
           inr (Line line, print line t)
       else inr (Words cmd, t))
    with
    | inl e => (inl e, t)
    | inr (cmd, t) =>
        if blocking then
          let '(out, sys) := communicate cmd (system t) in
          (inr (Some out), mkTerminal (printed t) (ALIVE_PROCESSES t) sys)
        else
          let '(p, sys) := spawn cmd (system t) in
          (inr None, mkTerminal (printed t) (ALIVE_PROCESSES t ++ [p]) sys)
    end.

(** A blocking remote run, as the functions below ask for it. *)
Definition run_remote (cmd : list string) (login_info : string)
    (modules_path : option string) : R (Z * string * string) :=
  fun t =>
    match _command_runner cmd login_info modules_path true true t with
    | (inl e, t') => (inl e, t')
    | (inr (Some out), t') => (inr out, t')
    | (inr None, t') => (inl TypeError, t')       (* unpacking [None] *)
    end.

(** [_check_remote_compss] *)
Definition _check_remote_compss (login_info : string)
    (modules_path : option string) : R string :=
  fun t =>
    match run_remote ["which"; "enqueue_compss"] login_info modules_path t with
    | (inl e, t) => (inl e, t)
    | (inr (return_code, stdout, stderr), t) =>
        if negb (Z.eqb return_code 0) then
          __display_error ERROR_CONNECTING (Some stderr) t
        else if String.eqb stdout EmptyString then
          __display_error ERROR_COMPSS_NOT_DEFINED None t
        else
          match Text.last_item (Text.split (ascii_of_nat 10) (Text.strip stdout)) with
          | None => (inl IndexError, t)
          | Some line =>
              let user_scripts_path := Text.dirname line in
              let compss_path :=
                String.concat "/"
                  (Text.drop_last 3 (Text.split "/" user_scripts_path)) in
              (inr compss_path, t)
          end
    end.

(** [_infer_scripts_path] *)
Definition _infer_scripts_path (compss_path : string) : string :=
  (compss_path ++ "/Runtime/scripts/system/cli")%string.

(** [l[-2]] and [l[-1]] *)
Definition last_two {A} (l : list A) : option (A * A) :=
  match rev l with
  | b :: a :: _ => Some (a, b)
  | _ => None
  end.

(** [job_status] *)
Definition job_status (scripts_path job_id login_info : string)
    (modules_path : option string) : R string :=
  fun t =>
    let cmd :=
      [INTERPRETER; (scripts_path ++ "/" ++ STATUS_SCRIPT)%string; job_id] in
    match run_remote cmd login_info modules_path t with
    | (inl e, t) => (inl e, t)
    | (inr (return_code, stdout, stderr), t) =>
        let out := Text.splitlines stdout in
        match last_two out with
        | None => (inl IndexError, t)
        | Some (before_last, last) =>
            if String.eqb before_last SUCCESS_KEYWORD then
              match Text.split ":" last with
              | _ :: status :: _ => (inr status, t)
              | _ => (inl IndexError, t)
              end
            else (inr ERROR_STATUS_JOB, t)
        end
    end.

(** [job_list] *)
Definition job_list (scripts_path login_info : string)
    (modules_path : option string) : R unit :=
  fun t =>
    let cmd := [INTERPRETER; (scripts_path ++ "/" ++ FIND_SCRIPT)%string] in
    match run_remote cmd login_info modules_path t with
    | (inl e, t) => (inl e, t)
    | (inr (return_code, stdout, stderr), t) =>
        if negb (Z.eqb return_code 0) then
          __display_error ERROR_STATUS_JOB (Some stderr) t
        else
          match Text.splitlines stdout with
          | [] => (inl IndexError, t)
          | first :: job_ids =>
              if String.eqb first SUCCESS_KEYWORD then
                (inr tt,
                 fold_left (fun t job_id => print job_id t) job_ids
                   (print "Available notebooks: " t))
              else __display_error ERROR_STATUS_JOB (Some stderr) t
          end
    end.

(** [cancel_job] *)
Definition cancel_job (scripts_path : string) (job_ids : list string)
    (login_info : string) (modules_path : option string) : R unit :=
  fun t =>
    let cmd :=
      [INTERPRETER; (scripts_path ++ "/" ++ CANCEL_SCRIPT)%string]
        ++ job_ids in
    match run_remote cmd login_info modules_path t with
    | (inl e, t) => (inl e, t)
    | (inr (return_code, stdout, stderr), t) =>
        if negb (Z.eqb return_code 0) then
          __display_error ERROR_CANCELLING_JOB (Some stderr) t
        else
          match Text.splitlines stdout with
          | [] => (inl IndexError, t)
          | first :: _ =>
              if String.eqb first SUCCESS_KEYWORD then
                (inr tt, print "Jobs successfully cancelled." t)
              else __display_error ERROR_CANCELLING_JOB (Some stderr) t
          end
    end.

End WithDefaults.

End Remote.

(** ** A sample supercomputer *)

Module RemoteSample.

Import Remote.

Definition nl : string := String (ascii_of_nat 10) EmptyString.

(** [sub in s] *)
Definition contains (sub s : string) : bool :=
  match String.index 0 sub s with
  | Some _ => true
  | None => false
  end.

(** A login node with COMPSs under [/apps/COMPSs/3.0] and two notebooks
    running. *)
Definition answer (cmd : command) : Z * string * string :=
  match cmd with
  | Line l =>
      if contains "which enqueue_compss" l then
        (0%Z,
         ("/apps/COMPSs/3.0/Runtime/scripts/user/enqueue_compss" ++ nl)%string,
         EmptyString)
      else if contains "status.py" l then
        (0%Z, ("SUCCESS" ++ nl ++ "STATUS:RUNNING" ++ nl)%string, EmptyString)
      else if contains "find.py" l then
        (0%Z, ("SUCCESS" ++ nl ++ "1234" ++ nl ++ "5678" ++ nl)%string,
         EmptyString)
      else if contains "cancel.py" l then
        (0%Z, ("SUCCESS" ++ nl)%string, EmptyString)
      else (127%Z, EmptyString, "command not found")
  | Words _ => (127%Z, EmptyString, "command not found")
  end.

Definition defaults (windows : bool) : Defaults := {|
  INTERPRETER := "python3";
  STATUS_SCRIPT := "status.py";
  FIND_SCRIPT := "find.py";
  CANCEL_SCRIPT := "cancel.py";
  SUCCESS_KEYWORD := "SUCCESS";
  ERROR_CONNECTING := "Could not connect to the supercomputer";
  ERROR_COMPSS_NOT_DEFINED := "COMPSs is not available in the supercomputer";
  ERROR_STATUS_JOB := "Could not check the status of the job";
  ERROR_CANCELLING_JOB := "Could not cancel the job";
  is_windows := windows;
  System := unit;
  communicate := fun cmd sys => (answer cmd, sys);
  spawn := fun _ sys => (0%nat, sys)
|}.

Definition posix : Defaults := defaults false.
Definition windows : Defaults := defaults true.

(** Nothing printed yet, nothing left running. *)
Definition terminal (windows : bool) : Terminal (D := defaults windows) :=
  mkTerminal (D := defaults windows) [] [] tt.

End RemoteSample.
(** * Properties *)

(** ** The core element *)

Section CoreElement.

Variables (c : CE.t) (v : pyval).

(** C10. Each of the six setters of [CE] changes its own field and leaves
    the other five as they are, the getter of a field returns the value
    last set (the setter's argument, whatever the element held before),
    a new element has its six fields at [None], and [reset] puts all six
    back to [None]. *)
Theorem CE_setters_getters_reset :
  getters (CE.set_ce_signature v c) = <[0%nat := v]> (getters c)
  /\ getters (CE.set_impl_signature v c) = <[1%nat := v]> (getters c)
  /\ getters (CE.set_impl_constraints v c) = <[2%nat := v]> (getters c)
  /\ getters (CE.set_impl_type v c) = <[3%nat := v]> (getters c)
  /\ getters (CE.set_impl_io v c) = <[4%nat := v]> (getters c)
  /\ getters (CE.set_impl_type_args v c) = <[5%nat := v]> (getters c)
  /\ getters (CE.reset c) = replicate 6 PNone
  /\ getters CE.new = replicate 6 PNone.
Proof. repeat split. Qed.

End CoreElement.

(** Writing a field twice keeps the second value only. *)
Lemma CE_set_twice (c : CE.t) (v1 v2 : pyval) :
  CE.set_ce_signature v2 (CE.set_ce_signature v1 c) = CE.set_ce_signature v2 c
  /\ CE.set_impl_signature v2 (CE.set_impl_signature v1 c)
     = CE.set_impl_signature v2 c
  /\ CE.set_impl_constraints v2 (CE.set_impl_constraints v1 c)
     = CE.set_impl_constraints v2 c
  /\ CE.set_impl_type v2 (CE.set_impl_type v1 c) = CE.set_impl_type v2 c
  /\ CE.set_impl_io v2 (CE.set_impl_io v1 c) = CE.set_impl_io v2 c
  /\ CE.set_impl_type_args v2 (CE.set_impl_type_args v1 c)
     = CE.set_impl_type_args v2 c.
Proof. repeat split. Qed.

(** ** Writing a descriptor field that is already set *)

(** C4, refuted as stated: an element whose implementation type is
    "PYTHON_MPI" takes "MPI" on a second [set_impl_type], nothing being
    raised, and the first submitter call of a constraint layer over a
    descriptor that already holds constraints returns normally with the
    constraints replaced. *)
Lemma second_write_overwrites :
  (let c1 := CE.set_impl_type (PStr "PYTHON_MPI") CE.new in
   CE.get_impl_type c1 <> PNone
   /\ CE.get_impl_type (CE.set_impl_type (PStr "MPI") c1) = PStr "MPI")
  /\ (let c0 :=
        CE.set_impl_constraints (PDict [("computing_units", PStr "2")])
          CE.new in
      let w := set_current_core_element c0 (Sample.world MASTER) in
      let self :=
        Sample.decorator "@constraint" [] [("memory_size", PStr "4")] in
      let r :=
        Constraint.constrained_f (E := Sample.externals) 0%nat [PInt 5] []
          (self, w) in
      CE.get_impl_constraints (current_core_element w) <> PNone
      /\ fst r = inr (PList [PList [PInt 5]; PDict []])
      /\ CE.get_impl_constraints (current_core_element (snd (snd r)))
         = PDict [("memory_size", PStr "4")]).
Proof.
  split.
  - split; [discriminate | reflexivity].
  - cbn. repeat split. discriminate.
Qed.

Section Overwriting.

Context `{E : Externals}.

(** C4, as the code has it.  No setter of [CE] looks at the field it
    writes: a second write replaces the value of the first and leaves
    the other five fields alone, and nothing is raised.  The constraint
    layer is one such writer: the first submitter call of a function
    under [@constraint] puts the declared constraints into the
    module-level core element, whatever constraints it held, and sets
    the flag. *)
Theorem descriptor_fields_are_overwritten (c : CE.t) (v1 v2 : pyval)
    (func : fid) (self : Decorator) (w : World) :
  Self.registered self = false ->
  getters (CE.set_ce_signature v2 (CE.set_ce_signature v1 c))
  = <[0%nat := v2]> (getters c)
  /\ getters (CE.set_impl_signature v2 (CE.set_impl_signature v1 c))
     = <[1%nat := v2]> (getters c)
  /\ getters (CE.set_impl_constraints v2 (CE.set_impl_constraints v1 c))
     = <[2%nat := v2]> (getters c)
  /\ getters (CE.set_impl_type v2 (CE.set_impl_type v1 c))
     = <[3%nat := v2]> (getters c)
  /\ getters (CE.set_impl_io v2 (CE.set_impl_io v1 c))
     = <[4%nat := v2]> (getters c)
  /\ getters (CE.set_impl_type_args v2 (CE.set_impl_type_args v1 c))
     = <[5%nat := v2]> (getters c)
  /\ Constraint.register func (self, w)
     = (inr tt,
        (Self.set_registered true (Self.set_module (get_module func) self),
         set_current_core_element
           (CE.set_impl_constraints (PDict (Self.kwargs self))
              (current_core_element w)) w)).
Proof.
  intros Hreg.
  destruct (CE_set_twice c v1 v2) as (H0 & H1 & H2 & H3 & H4 & H5).
  rewrite H0, H1, H2, H3, H4, H5.
  repeat split.
  unfold Constraint.register, bind, modify_self, modify_world, get_self, ret.
  cbn [fst snd Self.set_module Self.registered]. rewrite Hreg. reflexivity.
Qed.

End Overwriting.

(** A descriptor that holds constraints and an implementation type, and a
    constraint layer not yet registered. *)
Lemma descriptor_fields_are_overwritten_witness :
  let c :=
    CE.set_impl_type (PStr "PYTHON_MPI")
      (CE.set_impl_constraints (PDict [("computing_units", PStr "2")])
         CE.new) in
  let self :=
    Sample.decorator "@constraint" [] [("memory_size", PStr "4")] in
  let w := set_current_core_element c (Sample.world MASTER) in
  CE.get_impl_type (CE.set_impl_type (PStr "MPI") c) = PStr "MPI"
  /\ CE.get_impl_constraints
       (current_core_element
          (snd (snd (Constraint.register (E := Sample.externals) 1%nat
                       (self, w)))))
     = PDict [("memory_size", PStr "4")].
Proof.
  cbv zeta.
  destruct (descriptor_fields_are_overwritten (E := Sample.externals)
              (CE.set_impl_constraints
                 (PDict [("computing_units", PStr "2")]) CE.new)
              (PStr "PYTHON_MPI") (PStr "MPI") 1%nat
              (Sample.decorator "@constraint" []
                 [("memory_size", PStr "4")])
              (set_current_core_element
                 (CE.set_impl_type (PStr "PYTHON_MPI")
                    (CE.set_impl_constraints
                       (PDict [("computing_units", PStr "2")]) CE.new))
                 (Sample.world MASTER))
              eq_refl)
    as (_ & _ & _ & Hty & _ & _ & Hreg).
  split.
  - reflexivity.
  - rewrite Hreg. reflexivity.
Defined.

(** ** Declaring an [@mpi] task *)

Section MPIDeclaration.

Context `{E : Externals}.

(** The loop of [__init__] never raises and counts every such key. *)
Lemma count_layouts_spec (keys : list string) :
  forall (n : nat) (w : World),
    fst (MPI.count_layouts keys n w)
    = inr (n + length (List.filter (Str.contains "_layout") keys))%nat.
Proof.
  induction keys as [|key keys IH]; intros n w; cbn [MPI.count_layouts List.filter].
  - cbn. f_equal. lia.
  - destruct (Str.contains "_layout" key).
    + unfold bind, modify. rewrite IH. cbn [length]. f_equal. lia.
    + apply IH.
Qed.

(** C3. An [@mpi] declaration made in scope with two or more keyword
    options whose names contain "_layout" fails in the constructor, with
    the exception "More than one layout definition is not yet
    supported!" (what the design document calls a ConfigurationError):
    no decorator object results, so no wrapped function exists to be
    called. *)
Theorem mpi_two_layouts_rejected (args : tuple) (kwargs : dict) (w : World) :
  in_pycompss w = true ->
  (2 <= length (MPI.layout_keys kwargs))%nat ->
  fst (MPI.__init__ args kwargs w)
  = inl (Exception "More than one layout definition is not yet supported!").
Proof.
  intros Hscope Hlay.
  unfold MPI.__init__, bind, get.
  cbn [PyCOMPSsDecorator_init Self.set_task_type Self.scope Self.kwargs].
  rewrite Hscope.
  pose proof (count_layouts_spec (Dict.keys kwargs) 0 w) as Hc.
  destruct (MPI.count_layouts (Dict.keys kwargs) 0 w) as [r w'].
  cbn [fst] in Hc. subst r. cbn [Nat.add].
  fold (MPI.layout_keys kwargs).
  destruct (Nat.ltb_spec 1 (length (MPI.layout_keys kwargs))) as [_|Hle].
  - reflexivity.
  - lia.
Qed.

End MPIDeclaration.

(** Two layout options on a declaration made by the master. *)
Lemma mpi_two_layouts_rejected_witness :
  fst (MPI.__init__ (E := Sample.externals) []
         [("runner", PStr "mpirun");
          ("data_layout", PDict [("block_count", PInt 4)]);
          ("out_layout", PDict [("block_count", PInt 2)])]
         (Sample.world MASTER))
  = inl (Exception "More than one layout definition is not yet supported!").
Proof.
  apply mpi_two_layouts_rejected.
  - reflexivity.
  - vm_compute. lia.
Defined.

(** ** Configuring the core element of an [@mpi] task *)

Section MPIConfigure.

Context `{E : Externals}.

(** The call as [__configure_core_element__] makes it: no argument for
    the parameter [kwargs], so the call raises before the body runs. *)
Lemma resolve_layout_without_argument (s : St) :
  MPI.__resolve_collection_layout_params__ [] s = (inl MPI.missing_kwargs, s).
Proof. reflexivity. Qed.

(** The loop of the body skips every option that is no layout. *)
Lemma layout_items_no_layout (items : dict) :
  MPI.layout_keys items = [] ->
  forall acc s, MPI.layout_items items acc s = (inr acc, s).
Proof.
  unfold MPI.layout_keys.
  induction items as [|[key value] items IH]; intros Hno acc s.
  - reflexivity.
  - cbn [Dict.keys map fst List.filter] in Hno.
    cbn [MPI.layout_items].
    destruct (Str.contains "_layout" key); [discriminate|].
    now apply IH.
Qed.

(** The body of [__resolve_collection_layout_params__], had it been
    given its argument: without a layout option it returns the empty
    parameter name and three times "-1". *)
Lemma resolve_layout_no_layout (kwargs : dict) (self : Decorator) (w : World) :
  MPI.layout_keys (Self.kwargs self) = [] ->
  MPI.__resolve_collection_layout_params__ [kwargs] (self, w)
  = (inr [PStr EmptyString; PStr "-1"; PStr "-1"; PStr "-1"], (self, w)).
Proof.
  intros Hno.
  unfold MPI.__resolve_collection_layout_params__, bind, lift_exn, get_self.
  cbn [MPI.bind_parameters fst].
  rewrite (layout_items_no_layout _ Hno).
  reflexivity.
Qed.

(** C1. For an [@mpi] task declared with a runner and without binary (and
    whatever its flags and layout), the configuration of the first
    submitter call does not produce the ten implementation arguments: it
    stops at the call of [__resolve_collection_layout_params__], made
    without the argument the method requires, with a [TypeError]; the
    task type has been set to "PYTHON_MPI" and the working directory and
    exit-value options resolved by then, and no descriptor has been
    created or written. *)
Theorem mpi_sentinel_configure_raises
    (self : Decorator) (kwargs kw' : dict) (runner : pyval) (w : World) :
  Dict.mem "binary" (Self.kwargs self) = false ->
  Dict.get "runner" (Self.kwargs self) = Some runner ->
  Dict.get "scale_by_cu" (Self.kwargs self) = None ->
  resolve_fail_by_exit_value (resolve_working_dir (Self.kwargs self))
  = inr kw' ->
  MPI.__configure_core_element__ kwargs (self, w)
  = (inl MPI.missing_kwargs,
     (Self.set_kwargs kw' (Self.set_task_type "PYTHON_MPI" self), w)).
Proof.
  intros Hbin Hrun Hscale Hfail.
  unfold MPI.__configure_core_element__, bind, get_self, modify_self,
    lift_exn, ret, Dict.getitem.
  cbn [fst snd]. rewrite Hbin. cbn [fst snd]. rewrite Hrun, Hscale.
  cbn [fst snd Self.set_task_type Self.set_kwargs Self.kwargs].
  rewrite Hfail. reflexivity.
Qed.

End MPIConfigure.

(** The task [@mpi(runner="mpirun")] of the master, first call. *)
Lemma mpi_sentinel_configure_raises_witness :
  MPI.__configure_core_element__ (E := Sample.externals) []
    (Sample.mpi_self, Sample.world MASTER)
  = (inl MPI.missing_kwargs,
     (Self.set_kwargs Sample.mpi_resolved
        (Self.set_task_type "PYTHON_MPI" Sample.mpi_self),
      Sample.world MASTER)).
Proof.
  apply (mpi_sentinel_configure_raises (E := Sample.externals)
           Sample.mpi_self [] Sample.mpi_resolved (PStr "mpirun"));
    reflexivity.
Defined.

(** ** Declared [@mpi] tasks called by the master *)

(** [d[k]] after [d[k] = v]. *)
Lemma Dict_get_set (k : string) (v : pyval) (d : dict) :
  Dict.get k (Dict.set k v d) = Some v.
Proof.
  induction d as [|[k' v'] d IH]; cbn.
  - now rewrite String.eqb_refl.
  - destruct (String.eqb k k') eqn:Ek; cbn; rewrite Ek; [reflexivity | exact IH].
Qed.

Section MPICalls.

Context `{E : Externals}.

(** On every input the configuration raises before it reaches a
    descriptor: the world is as it was and the flag is not set. *)
Lemma mpi_configure_never_completes (kwargs : dict) (s : St) :
  exists (e : exn) (self' : Decorator),
    MPI.__configure_core_element__ kwargs s = (inl e, (self', snd s))
    /\ Self.core_element_configured self'
       = Self.core_element_configured (fst s)
    /\ Self.scope self' = Self.scope (fst s).
Proof.
  destruct s as [self w].
  unfold MPI.__configure_core_element__, bind, get_self, modify_self,
    lift_exn, ret, raise, Dict.getitem.
  cbn [fst snd].
  repeat match goal with
         | |- context [match ?x with _ => _ end] =>
             lazymatch x with
             | context [match _ with _ => _ end] => fail
             | MPI.__resolve_collection_layout_params__ _ _ =>
                 rewrite resolve_layout_without_argument
             | _ => destruct x eqn:?
             end; cbn [fst snd]
         end;
    eexists _, _; (split; [reflexivity | split; reflexivity]).
Qed.

(** What a declaration made in scope returns when it returns. *)
Lemma mpi_init_in_scope (args : tuple) (kwargs : dict) (w w' : World)
    (self : Decorator) :
  in_pycompss w = true ->
  MPI.__init__ args kwargs w = (inr self, w') ->
  exists kw1,
    process_computing_nodes "@mpi" kwargs = inr kw1
    /\ self = Self.set_kwargs
                (if negb (Dict.mem "processes" kw1)
                 then Dict.set "processes" (PInt 1) kw1 else kw1)
                (Self.set_task_type "mpi"
                   (PyCOMPSsDecorator_init "@mpi" args kwargs w)).
Proof.
  intros Hscope.
  unfold MPI.__init__, bind, get, lift_exn, ret, raise.
  cbn [PyCOMPSsDecorator_init Self.set_task_type Self.scope Self.kwargs].
  rewrite Hscope.
  destruct (MPI.count_layouts (Dict.keys kwargs) 0 w) as [[e|n] w1];
    [discriminate|].
  destruct (1 <? n)%nat; [discriminate|].
  destruct (check_arguments _ _ _ _ _); [discriminate|].
  destruct (process_computing_nodes "@mpi" kwargs) as [e|kw1];
    [discriminate|].
  intros [= <- _]. exists kw1. split; reflexivity.
Qed.

(** C9. The implementation type is never written: whatever the options
    of an [@mpi] task declared in scope (binary present or absent), a
    submitter call raises inside the configuration step, at the call of
    [__resolve_collection_layout_params__] at the latest, leaves the
    world with its descriptors untouched and the flag unset.  The
    declaration did give [processes] the default 1 when the option was
    not supplied. *)
Theorem mpi_submitter_call_never_sets_impl_type
    (d_args : tuple) (d_kwargs : dict) (w0 w0' : World) (self : Decorator)
    (func : fid) (args : tuple) (kwargs : dict) (w : World) :
  in_pycompss w0 = true ->
  MPI.__init__ d_args d_kwargs w0 = (inr self, w0') ->
  in_master w = true ->
  let r := MPI.mpi_f func args kwargs (self, w) in
  (exists e, fst r = inl e)
  /\ snd (snd r) = w
  /\ Self.core_element_configured (fst (snd r)) = false
  /\ (forall kw1,
        process_computing_nodes "@mpi" d_kwargs = inr kw1 ->
        Dict.mem "processes" kw1 = false ->
        Dict.get "processes" (Self.kwargs self) = Some (PInt 1)).
Proof.
  intros Hscope Hinit Hmaster.
  destruct (mpi_init_in_scope _ _ _ _ _ Hscope Hinit) as (kw1 & Hpcn & Hself).
  assert (Hsc : Self.scope self = true) by (subst self; exact Hscope).
  assert (Hcf : Self.core_element_configured self = false)
    by (subst self; reflexivity).
  destruct (mpi_configure_never_completes kwargs (self, w))
    as (e & self' & Hconf & Hflag & _).
  cbn [fst snd] in Hconf, Hflag.
  cbv zeta.
  unfold MPI.mpi_f, bind, get_self, get_world, raise, ret.
  cbn [fst snd]. rewrite Hsc. cbn [negb fst snd].
  rewrite Hmaster, Hcf. cbn [negb].
  rewrite Hconf. cbn [fst snd].
  repeat split.
  - exists e. reflexivity.
  - congruence.
  - intros kw1' Hpcn' Hmem.
    rewrite Hpcn in Hpcn'. injection Hpcn' as ->.
    subst self. cbn [Self.set_kwargs Self.kwargs].
    rewrite Hmem. cbn [negb]. apply Dict_get_set.
Qed.

End MPICalls.

(** The task [@mpi(runner="mpirun")] declared and called by the master. *)
Lemma mpi_submitter_call_never_sets_impl_type_witness :
  let w := Sample.world MASTER in
  let r := MPI.mpi_f (E := Sample.externals) 0%nat [PInt 5] []
             (Sample.mpi_self, w) in
  (exists e, fst r = inl e)
  /\ snd (snd r) = w
  /\ Self.core_element_configured (fst (snd r)) = false
  /\ (forall kw1,
        process_computing_nodes (Externals := Sample.externals) "@mpi"
          [("runner", PStr "mpirun")] = inr kw1 ->
        Dict.mem "processes" kw1 = false ->
        Dict.get "processes" (Self.kwargs Sample.mpi_self) = Some (PInt 1)).
Proof.
  apply (mpi_submitter_call_never_sets_impl_type (E := Sample.externals)
           [] [("runner", PStr "mpirun")] (Sample.world MASTER)
           (Sample.world MASTER) Sample.mpi_self);
    reflexivity.
Defined.

(** ** Calls out of scope *)

Section OutOfScope.

Context `{E : Externals}.

(** C2, as the code has it.  A decorator declared while the execution
    context is out of scope stores [scope = False]; from then on, in
    whatever state the wrapper is called: the [@constraint] wrapper
    gives the result, and leaves the world, of the direct call of the
    function; the [@mpi] wrapper raises [Exception] with the
    [not_in_pycompss] message and the data transformation wrapper raises
    [NotImplementedError], neither calling the function nor changing
    anything. *)
Theorem out_of_scope_calls (v : variant) (d_args : tuple) (d_kwargs : dict)
    (w0 : World) (func : fid) (args : tuple) (kwargs : dict) (w : World) :
  context w0 = OUT_OF_SCOPE ->
  exists self : Decorator,
    declare v d_args d_kwargs w0 = (inr self, w0)
    /\ wrapper v func args kwargs (self, w)
       = match v with
         | ResourceConstraint =>
             (fst (call_fun func args kwargs w),
              (self, snd (call_fun func args kwargs w)))
         | MPIParallel => (inl (Exception (not_in_pycompss "mpi")), (self, w))
         | DataTransformationV => (inl NotImplementedError, (self, w))
         end.
Proof.
  intros Hctx.
  assert (Hscope : in_pycompss w0 = false)
    by (unfold in_pycompss; now rewrite Hctx).
  destruct v; cbn [declare wrapper].
  - eexists. split.
    + unfold Constraint.__init__, bind, get, ret. reflexivity.
    + unfold Constraint.constrained_f, bind, get_self.
      cbn [fst snd PyCOMPSsDecorator_init Self.scope].
      rewrite Hscope. cbn [negb].
      unfold Constraint.dummy_constraint, on_snd.
      now destruct (call_fun func args kwargs w).
  - eexists. split.
    + unfold MPI.__init__, bind, get, ret.
      cbn [PyCOMPSsDecorator_init Self.set_task_type Self.scope].
      rewrite Hscope. reflexivity.
    + unfold MPI.mpi_f, bind, get_self, raise.
      cbn [fst snd PyCOMPSsDecorator_init Self.set_task_type Self.scope].
      rewrite Hscope. reflexivity.
  - eexists. split.
    + unfold DataTransformation.__init__, bind, get, ret.
      cbn [Self.scope]. rewrite Hscope. reflexivity.
    + unfold DataTransformation.dt_f, bind, get_self, raise.
      cbn [fst snd Self.scope]. reflexivity.
Qed.

End OutOfScope.

(** C2, refuted as stated: [g] adds one to its argument; declared with
    [@mpi(runner="mpirun")] out of scope and called on 5, it raises where
    the direct call returns 6. *)
Lemma mpi_out_of_scope_is_an_error :
  let w := Sample.world OUT_OF_SCOPE in
  exists self : Decorator,
    MPI.__init__ (E := Sample.externals) [] [("runner", PStr "mpirun")] w
    = (inr self, w)
    /\ fst (MPI.mpi_f (E := Sample.externals) 1%nat [PInt 5] [] (self, w))
       = inl (Exception "The mpi decorator is not in PyCOMPSs scope")
    /\ fst (call_fun (Externals := Sample.externals) 1%nat [PInt 5] [] w)
       = inr (PInt 6).
Proof. eexists. repeat split. Qed.

(** [g] under [@constraint(computing_units="2")], declared out of scope
    and called on 5. *)
Lemma out_of_scope_calls_witness :
  exists self : Decorator,
    Constraint.__init__ [] [("computing_units", PStr "2")]
      (Sample.world OUT_OF_SCOPE)
    = (inr self, Sample.world OUT_OF_SCOPE)
    /\ Constraint.constrained_f (E := Sample.externals) 1%nat [PInt 5] []
         (self, Sample.world OUT_OF_SCOPE)
       = (inr (PInt 6), (self, Sample.world OUT_OF_SCOPE)).
Proof.
  exact (out_of_scope_calls (E := Sample.externals) ResourceConstraint []
           [("computing_units", PStr "2")] (Sample.world OUT_OF_SCOPE)
           1%nat [PInt 5] [] (Sample.world OUT_OF_SCOPE) eq_refl).
Defined.

(** ** Computations that write no descriptor *)

Section Frames.

Context `{E : Externals}.

Lemma frames_st_ret {A} (a : A) : frames_st (ret (S := St) a).
Proof. intros s; split; reflexivity. Qed.

Lemma frames_st_raise {A} (e : exn) : frames_st (raise (S := St) (A := A) e).
Proof. intros s; split; reflexivity. Qed.

Lemma frames_st_lift_exn {A} (r : exn + A) : frames_st (lift_exn (S := St) r).
Proof. intros s; split; reflexivity. Qed.

Lemma frames_st_get_self : frames_st get_self.
Proof. intros s; split; reflexivity. Qed.

Lemma frames_st_get_world : frames_st get_world.
Proof. intros s; split; reflexivity. Qed.

Lemma frames_st_modify_self (f : Decorator -> Decorator) :
  frames_st (modify_self f).
Proof. intros s; split; reflexivity. Qed.

Lemma frames_st_bind {A B} (m : M St A) (k : A -> M St B) :
  frames_st m -> (forall a, frames_st (k a)) -> frames_st (bind m k).
Proof.
  intros Hm Hk s. unfold bind.
  specialize (Hm s). destruct (m s) as [[e|a] s1]; cbn [snd] in *.
  - exact Hm.
  - destruct Hm as [Hd0 Hc0]. destruct (Hk a s1) as [Hd Hc].
    split; congruence.
Qed.

Lemma frames_st_on_snd {A} (m : M World A) : frames m -> frames_st (on_snd m).
Proof.
  intros Hm [d w]. unfold on_snd. specialize (Hm w).
  destruct (m w) as [r w1]. exact Hm.
Qed.

(** Acquiring and releasing a region touch the open regions only. *)
Lemma frames_st_keep_arguments {A} (args : tuple) (kwargs : dict)
    (prepend_strings : bool) (body : M St A) :
  frames_st body -> frames_st (keep_arguments args kwargs prepend_strings body).
Proof.
  intros Hb [d w]. unfold keep_arguments. cbn [fst snd].
  specialize (Hb (d, set_regions ((args, kwargs, prepend_strings) :: regions w) w)).
  destruct (body _) as [r [d1 w1]]. exact Hb.
Qed.

Hypothesis user : user_code_frames.

Lemma frames_st_call_fun (f : fid) (args : tuple) (kwargs : dict) :
  frames_st (on_snd (call_fun f args kwargs)).
Proof. apply frames_st_on_snd, user. Qed.

Lemma frames_st_transform_task (p g : pyval) (kwargs : dict) :
  frames_st (on_snd (transform_task p g kwargs)).
Proof. apply frames_st_on_snd, user. Qed.

Create HintDb frames.
#[local] Hint Resolve frames_st_ret frames_st_raise frames_st_lift_exn
  frames_st_get_self frames_st_get_world frames_st_modify_self
  frames_st_call_fun frames_st_transform_task : frames.

(** Decompose a computation along its binds, branches and regions. *)
Ltac frame :=
  repeat first
    [ solve [auto 1 with frames nocore]
    | apply frames_st_keep_arguments
    | progress cbv zeta
    | match goal with
      | |- frames_st (match ?x with _ => _ end) => destruct x
      | |- frames_st (bind _ _) => apply frames_st_bind; [|intros ?]
      end ].

(** A goal about one state, from the frame property of the computation. *)
Ltac by_frame :=
  match goal with
  | |- descriptors (snd (snd (?m ?s))) = _ /\ _ =>
      let Hf := fresh in
      cut (frames_st m); [intros Hf; exact (Hf s) | frame]
  end.

Lemma frames_st_call_value (func : pyval) (args : tuple) (kwargs : dict) :
  frames_st (DataTransformation.call_value func args kwargs).
Proof. unfold DataTransformation.call_value. frame. Qed.
#[local] Hint Resolve frames_st_call_value : frames.

Lemma frames_st_apply_dt (param_name func : pyval)
    (func_kwargs : DataTransformation.kwargs_ref) (args : tuple) (kwargs : dict) :
  frames_st (DataTransformation._apply_dt param_name func func_kwargs args kwargs).
Proof.
  unfold DataTransformation._apply_dt. frame.
Qed.
#[local] Hint Resolve frames_st_apply_dt : frames.

Lemma frames_st_apply_all (dts : list DataTransformation.dt_entry) :
  forall args kwargs, frames_st (DataTransformation.apply_all dts args kwargs).
Proof.
  induction dts as [|[[p f] r] dts IH]; intros args kwargs;
    cbn [DataTransformation.apply_all].
  - frame.
  - apply frames_st_bind; [apply frames_st_apply_dt|].
    intros [a k]. apply IH.
Qed.
#[local] Hint Resolve frames_st_apply_all : frames.

Lemma frames_st_call_dt (user_function : fid) (args : tuple) (kwargs : dict) :
  frames_st (DataTransformation.__call_dt__ user_function args kwargs).
Proof.
  unfold DataTransformation.__call_dt__. frame.
Qed.
#[local] Hint Resolve frames_st_call_dt : frames.

(** The data transformation wrapper writes no descriptor in any role. *)
Lemma frames_st_dt_f (user_function : fid) (args : tuple) (kwargs : dict) :
  frames_st (DataTransformation.dt_f user_function args kwargs).
Proof.
  unfold DataTransformation.dt_f. frame.
Qed.

(** One call of a wrapped function by a worker. *)
Lemma worker_call_frames (v : variant) (func : fid) (args : tuple)
    (kwargs : dict) (s : St) :
  context (snd s) = WORKER ->
  descriptors (snd (snd (wrapper v func args kwargs s))) = descriptors (snd s)
  /\ context (snd (snd (wrapper v func args kwargs s))) = WORKER.
Proof.
  intros Hw.
  assert (Hm : in_master (snd s) = false)
    by (unfold in_master; now rewrite Hw).
  enough (Hf : descriptors (snd (snd (wrapper v func args kwargs s)))
               = descriptors (snd s)
               /\ context (snd (snd (wrapper v func args kwargs s)))
                  = context (snd s))
    by (destruct Hf as [Hd Hc]; split; [exact Hd | now rewrite Hc]).
  assert (Hself : forall A (k : Decorator -> M St A),
             bind get_self k s = k (fst s) s) by reflexivity.
  assert (Hworld : forall A (k : World -> M St A),
             bind get_world k s = k (snd s) s) by reflexivity.
  destruct v; cbn [wrapper].
  - unfold Constraint.constrained_f, Constraint.dummy_constraint.
    rewrite Hself.
    destruct (negb (Self.scope (fst s))).
    + now apply frames_st_call_fun.
    + rewrite Hworld, Hm. by_frame.
  - unfold MPI.mpi_f. rewrite Hself.
    destruct (negb (Self.scope (fst s))).
    + now apply frames_st_raise.
    + rewrite Hworld, Hm. by_frame.
  - apply frames_st_dt_f.
Qed.

(** C6. Calls made while the execution context is WORKER write no field
    of a task descriptor, however many they are and whatever the state of
    the decorator object: after any sequence of calls of a wrapped
    function (constraint, mpi or data transformation), over user code
    that itself leaves the descriptors and the context alone, the core
    element objects and the module-level core element are what they
    were. *)
Theorem worker_calls_write_no_descriptor (v : variant) (func : fid)
    (calls : list (tuple * dict)) :
  forall (self : Decorator) (w : World),
    context w = WORKER ->
    descriptors (snd (run_calls (wrapper v func) calls (self, w)))
    = descriptors w.
Proof.
  induction calls as [|[args kwargs] calls IH]; intros self w Hw.
  - reflexivity.
  - cbn [run_calls].
    destruct (worker_call_frames v func args kwargs (self, w) Hw) as [Hd Hc].
    destruct (wrapper v func args kwargs (self, w)) as [r [self1 w1]].
    cbn [snd] in *. rewrite (IH self1 w1 Hc). exact Hd.
Qed.

End Frames.

(** The functions of the sample environment only compute. *)
Lemma sample_user_code_frames : user_code_frames (E := Sample.externals).
Proof.
  assert (Hc : forall f args kwargs, frames (Sample.call f args kwargs)).
  { intros f args kwargs w. unfold Sample.call.
    destruct f as [|[|[|[|f]]]]; try (split; reflexivity);
      destruct args as [|[] args]; split; reflexivity. }
  split.
  - exact Hc.
  - intros p g kwargs. cbn. destruct g; try (intros w; split; reflexivity).
    apply Hc.
Qed.

(** Three calls by a worker of a function under [@constraint]. *)
Lemma worker_calls_write_no_descriptor_witness :
  descriptors
    (snd (run_calls
            (wrapper (E := Sample.externals) ResourceConstraint 1%nat)
            [([PInt 1], []); ([PInt 2], []); ([PStr "a"], [])]
            (Sample.decorator "@constraint" [] [("computing_units", PStr "2")],
             Sample.world WORKER)))
  = descriptors (Sample.world WORKER).
Proof.
  apply (worker_calls_write_no_descriptor (E := Sample.externals)
           sample_user_code_frames).
  reflexivity.
Defined.

(** ** Registration of constraints by the master *)

Section ConstraintCalls.

Context `{E : Externals}.
Hypothesis user : user_code_frames.

(** The call of the wrapped function inside its region leaves the
    decorator object, the descriptors and the context as they are. *)
Lemma kept_call (func : fid) (args : tuple) (kwargs : dict)
    (prepend_strings : bool) (d : Decorator) (w : World) :
  exists r w',
    keep_arguments args kwargs prepend_strings
      (on_snd (call_fun func args kwargs)) (d, w) = (r, (d, w'))
    /\ descriptors w' = descriptors w
    /\ context w' = context w.
Proof.
  unfold keep_arguments, on_snd. cbn [fst snd].
  destruct user as [Hcall _].
  specialize (Hcall func args kwargs
                (set_regions ((args, kwargs, prepend_strings) :: regions w) w)).
  destruct (call_fun func args kwargs _) as [r w1].
  cbn [snd] in Hcall. destruct Hcall as [Hd Hc].
  eexists _, _. split; [reflexivity|]. split; assumption.
Qed.

(** Once the flag is set, the master branch writes the module attribute
    of the decorator object and nothing else. *)
Lemma register_when_registered (func : fid) (self : Decorator) (w : World) :
  Self.registered self = true ->
  Constraint.register func (self, w)
  = (inr tt, (Self.set_module (get_module func) self, w)).
Proof.
  intros Hreg.
  unfold Constraint.register, bind, modify_self, get_self, ret.
  cbn [fst snd Self.set_module Self.registered]. rewrite Hreg. reflexivity.
Qed.

(** A call by the master of a function whose constraints are registered. *)
Lemma constrained_call_when_registered (func : fid) (args : tuple)
    (kwargs : dict) (self : Decorator) (w : World) :
  Self.scope self = true ->
  Self.registered self = true ->
  context w = MASTER ->
  let s' := snd (Constraint.constrained_f func args kwargs (self, w)) in
  Self.scope (fst s') = true
  /\ Self.registered (fst s') = true
  /\ Self.kwargs (fst s') = Self.kwargs self
  /\ context (snd s') = MASTER
  /\ descriptors (snd s') = descriptors w.
Proof.
  intros Hscope Hreg Hctx.
  assert (Hm : in_master w = true) by (unfold in_master; now rewrite Hctx).
  unfold Constraint.constrained_f, bind, get_self, get_world.
  cbn [fst snd]. rewrite Hscope. cbn [negb fst snd]. rewrite Hm.
  rewrite (register_when_registered _ _ _ Hreg).
  destruct (kept_call func args kwargs true
              (Self.set_module (get_module func) self) w)
    as (r & w' & Hk & Hd & Hc).
  cbn iota. rewrite Hk.
  cbn [fst snd]. repeat split; try assumption.
  congruence.
Qed.

(** C5, for the constraint layer.  For a function under [@constraint]
    declared in scope and not yet registered, called by the master over
    user code that leaves the descriptors and the context alone: the
    first call writes the declared constraints into the core element and
    sets the flag; in every later state the flag is set, so the master
    branch of a later call writes no descriptor; and whatever calls
    follow, the descriptors after them are those after the first call. *)
Theorem constraint_registers_once (func : fid) (self : Decorator)
    (w : World) (args : tuple) (kwargs : dict)
    (calls : list (tuple * dict)) :
  Self.scope self = true ->
  Self.registered self = false ->
  context w = MASTER ->
  let s1 := snd (Constraint.constrained_f func args kwargs (self, w)) in
  let sN := run_calls (Constraint.constrained_f func) calls s1 in
  Self.registered (fst s1) = true
  /\ current_core_element (snd s1)
     = CE.set_impl_constraints (PDict (Self.kwargs self))
         (current_core_element w)
  /\ heap (snd s1) = heap w
  /\ Self.registered (fst sN) = true
  /\ snd (snd (Constraint.register func sN)) = snd sN
  /\ descriptors (snd sN) = descriptors (snd s1).
Proof.
  intros Hscope Hreg Hctx.
  assert (Hm : in_master w = true) by (unfold in_master; now rewrite Hctx).
  (* the first call *)
  assert (H1 : exists r self1 w1,
             Constraint.constrained_f func args kwargs (self, w)
             = (r, (self1, w1))
             /\ Self.scope self1 = true /\ Self.registered self1 = true
             /\ context w1 = MASTER
             /\ descriptors w1
                = (heap w,
                   CE.set_impl_constraints (PDict (Self.kwargs self))
                     (current_core_element w))).
  { unfold Constraint.constrained_f, bind, get_self, get_world.
    cbn [fst snd]. rewrite Hscope. cbn [negb fst snd]. rewrite Hm.
    unfold Constraint.register, bind, modify_self, modify_world, get_self, ret.
    cbn [fst snd Self.set_module Self.registered]. rewrite Hreg. cbn [negb].
    match goal with
    | |- context [keep_arguments _ _ _ _ (?d, ?w')] =>
        destruct (kept_call func args kwargs true d w')
          as (r & w1 & Hk & Hd & Hc); rewrite Hk
    end.
    eexists _, _, _. split; [reflexivity|].
    repeat split; try assumption.
    rewrite Hc. exact Hctx. }
  destruct H1 as (r & self1 & w1 & Hcall & Hs1 & Hr1 & Hc1 & Hd1).
  cbv zeta. rewrite Hcall. cbn [fst snd].
  (* the later calls *)
  assert (HN : forall calls self1 w1,
             Self.scope self1 = true -> Self.registered self1 = true ->
             context w1 = MASTER ->
             Self.registered
               (fst (run_calls (Constraint.constrained_f func) calls
                       (self1, w1))) = true
             /\ descriptors
                  (snd (run_calls (Constraint.constrained_f func) calls
                          (self1, w1))) = descriptors w1).
  { clear - user. intros calls0.
    induction calls0 as [|[a k] calls0 IH]; intros self1 w1 Hs Hr Hc.
    - split; [exact Hr | reflexivity].
    - cbn [run_calls].
      pose proof (constrained_call_when_registered func a k self1 w1 Hs Hr Hc)
        as Hstep.
      destruct (Constraint.constrained_f func a k (self1, w1))
        as [r [self2 w2]].
      cbn [fst snd] in Hstep.
      destruct Hstep as (Hs2 & Hr2 & _ & Hc2 & Hd2).
      destruct (IH self2 w2 Hs2 Hr2 Hc2) as [IHr IHd].
      cbn [snd]. split; [exact IHr | rewrite IHd; exact Hd2]. }
  destruct (HN calls self1 w1 Hs1 Hr1 Hc1) as [HrN HdN].
  injection Hd1 as Hh1 Hcce1.
  repeat split; try assumption.
  destruct (run_calls (Constraint.constrained_f func) calls (self1, w1))
    as [selfN wN].
  cbn [fst] in HrN. now rewrite (register_when_registered _ _ _ HrN).
Qed.

End ConstraintCalls.

(** A function under [@constraint(computing_units="2")], called three
    times by the master. *)
Lemma constraint_registers_once_witness :
  let self :=
    Sample.decorator "@constraint" [] [("computing_units", PStr "2")] in
  let w := Sample.world MASTER in
  let s1 :=
    snd (Constraint.constrained_f (E := Sample.externals) 1%nat [PInt 5] []
           (self, w)) in
  let sN :=
    run_calls (Constraint.constrained_f (E := Sample.externals) 1%nat)
      [([PInt 6], []); ([PInt 7], [])] s1 in
  Self.registered (fst s1) = true
  /\ current_core_element (snd s1)
     = CE.set_impl_constraints (PDict (Self.kwargs self))
         (current_core_element w)
  /\ heap (snd s1) = heap w
  /\ Self.registered (fst sN) = true
  /\ snd (snd (Constraint.register (E := Sample.externals) 1%nat sN)) = snd sN
  /\ descriptors (snd sN) = descriptors (snd s1).
Proof.
  apply (constraint_registers_once (E := Sample.externals)
           sample_user_code_frames);
    reflexivity.
Defined.

(** C5, refuted as stated: a function [f(x)] under [@dt("x", g)], [g]
    adding one, called twice by the master.  The first call hands 6 to [f]
    for 5 and leaves the flag unset; the second call runs the same step
    again and hands 8 to [f] for 7. *)
Lemma dt_configures_on_every_call :
  let w := Sample.world MASTER in
  let r1 :=
    DataTransformation.dt_f (E := Sample.externals) 0%nat [PInt 5] []
      (Sample.dt_self, w) in
  let r2 :=
    DataTransformation.dt_f (E := Sample.externals) 0%nat [PInt 7] []
      (snd r1) in
  fst r1 = inr (PList [PList [PInt 6]; PDict []])
  /\ Self.core_element_configured (fst (snd r1)) = false
  /\ fst r2 = inr (PList [PList [PInt 8]; PDict []]).
Proof. repeat split. Qed.

(** ** Data transformations *)

(** [k in d] holds when [d.get(k)] finds a value. *)
Lemma Dict_mem_get (k : string) (d : dict) :
  Dict.mem k d = match Dict.get k d with Some _ => true | None => false end.
Proof.
  induction d as [|[k' v] d IH]; cbn; [reflexivity|].
  destruct (String.eqb k k'); [reflexivity | exact IH].
Qed.

(** Projections of a decorator object built field by field. *)
Ltac norm :=
  unfold Self.set_kwargs, Self.set_user_function;
  cbn [fst snd Self.decorator_name Self.args Self.kwargs Self.scope
         Self.core_element Self.core_element_configured Self.registered
         Self.module Self.task_type Self.user_function].

Section DataTransformationCalls.

Context `{E : Externals}.

(** C7, as the code has it.  For [f] under a data transformation
    declared with the parameter name [x] and the function [g], called in
    scope by the master (or with nesting enabled) with at least one
    positional argument and without the call-time keyword [dt]: when the
    value [p] of [x] is found by keyword, else by position, else as the
    declared default, the wrapper computes the transformation of [p] and
    calls [f] on the arguments with that result in the place of [p]. *)
Theorem dt_substitutes_value (self : Decorator) (w : World) (f : fid)
    (x : string) (g : pyval) (rest : tuple)
    (args : tuple) (kwargs : dict) (p : pyval) :
  Self.scope self = true ->
  Self.core_element_configured self = false ->
  in_master w || is_nesting_enabled w = true ->
  Self.args self = PStr x :: g :: rest ->
  args <> [] ->
  Dict.get "dt" kwargs = None ->
  Substitution.locate x (signature f) args kwargs = Some p ->
  DataTransformation.dt_f f args kwargs (self, w)
  = Substitution.substituted_call x g (Self.kwargs self) f args kwargs p
      (Substitution.after_call f self, w).
Proof.
  intros Hscope Hconf Hsub Hargs Hpos Hdt Hloc.
  destruct self as [dn dargs dkw dscope dce dconf dreg dmod dty duf].
  cbn [Self.scope Self.core_element_configured Self.args Self.kwargs] in *.
  subst dscope dconf dargs.
  destruct args as [|a0 args0]; [contradiction|].
  unfold DataTransformation.dt_f, DataTransformation.__call_dt__,
    bind, get_self, get_world, modify_self, raise, ret.
  norm. cbn [negb length Nat.eqb]. norm.
  rewrite Hsub, Hdt.
  cbn [andb fst snd Self.args DataTransformation.apply_all].
  unfold DataTransformation._apply_dt, Substitution.substituted_call,
    Substitution.transformed, Substitution.after_call,
    Substitution.is_workflow, Substitution.without_flag,
    Substitution.substitute, Substitution.locate in *.
  unfold bind, get_self, modify_self, lift_exn, ret, raise.
  cbn [DataTransformation.as_key]. norm.
  rewrite Dict_mem_get.
  destruct (Dict.get LABELS_is_workflow dkw) as [flag|]; norm;
    (destruct (Dict.get x kwargs) as [v|]; cbv beta iota in Hloc; norm;
     [ injection Hloc as Hv; subst v
     | destruct (DataTransformation.index x (Dict.keys (signature f)))
         as [i|]; [|discriminate Hloc]; norm;
       destruct ((a0 :: args0) !! i) as [v|] eqn:Hi;
       cbv beta iota in Hloc; norm;
       [ injection Hloc as Hv; subst v;
         pose proof (lookup_lt_Some _ _ _ Hi) as Hlt;
         apply Nat.ltb_lt in Hlt; rewrite Hlt
       | pose proof (lookup_ge_None_1 _ _ Hi) as Hge;
         apply Nat.ltb_ge in Hge; rewrite Hge, Hloc ] ]);
    match goal with
    | |- context [(if ?b then ?m1 else ?m2) ?s] =>
        destruct ((if b then m1 else m2) s) as [[e|nv] s']
    | |- context [on_snd ?m ?s] =>
        destruct (on_snd m s) as [[e|nv] s']
    end;
    reflexivity.
Qed.

End DataTransformationCalls.

(** [f(x)] under [@dt("x", g)], [g] adding one: [f(5)] by the master
    hands 6 to [f]. *)
Lemma dt_substitutes_value_witness :
  fst (DataTransformation.dt_f (E := Sample.externals) 0%nat [PInt 5] []
         (Sample.dt_self, Sample.world MASTER))
  = inr (PList [PList [PInt 6]; PDict []]).
Proof.
  rewrite (dt_substitutes_value (E := Sample.externals) Sample.dt_self
             (Sample.world MASTER) 0%nat "x" (PFun 1%nat) [] [PInt 5] []
             (PInt 5));
    try reflexivity.
  discriminate.
Defined.

(** C7, refuted as stated: [f(x)] under [@dt("x", g)] called as [f(x=5)].
    The value of [x] is there to be found by keyword, and the wrapper
    raises before looking for it, the call having no positional
    argument. *)
Lemma dt_keyword_only_call_raises :
  Substitution.locate "x" (signature (Externals := Sample.externals) 0%nat)
    [] [("x", PInt 5)] = Some (PInt 5)
  /\ fst (DataTransformation.dt_f (E := Sample.externals) 0%nat []
            [("x", PInt 5)] (Sample.dt_self, Sample.world MASTER))
     = inl (PyCOMPSsException "Missing arguments in DT decorator.").
Proof. split; reflexivity. Qed.

Section DataTransformationErrors.

Context `{E : Externals}.

(** C8, as the code has it.  For a function under a data transformation
    declared in scope, called by the master (or with nesting enabled):
    the call raises "Missing arguments in DT decorator." when it has no
    positional argument, and when it has no [dt] keyword and the
    decorator holds fewer than two arguments; it raises "Wrong Param
    Name in DT" when the decorator names a parameter that is neither
    among the keywords of the call nor in the signature of the function.
    In each case the function is not called and the world is left as it
    was. *)
Theorem dt_definition_errors (self : Decorator) (w : World) (f : fid)
    (args : tuple) (kwargs : dict) :
  Self.scope self = true ->
  Self.core_element_configured self = false ->
  in_master w || is_nesting_enabled w = true ->
  let r := DataTransformation.dt_f f args kwargs (self, w) in
  (args = [] ->
   fst r = inl (PyCOMPSsException "Missing arguments in DT decorator.")
   /\ snd (snd r) = w)
  /\ (Dict.get "dt" kwargs = None ->
      (length (Self.args self) < 2)%nat ->
      fst r = inl (PyCOMPSsException "Missing arguments in DT decorator.")
      /\ snd (snd r) = w)
  /\ (forall (x : string) (g : pyval) (rest : tuple),
        args <> [] ->
        Dict.get "dt" kwargs = None ->
        Self.args self = PStr x :: g :: rest ->
        Dict.get x kwargs = None ->
        DataTransformation.index x (Dict.keys (signature f)) = None ->
        fst r = inl (Exception "Wrong Param Name in DT")
        /\ snd (snd r) = w).
Proof.
  intros Hscope Hconf Hsub r. subst r.
  destruct self as [dn dargs dkw dscope dce dconf dreg dmod dty duf].
  cbn [Self.scope Self.core_element_configured Self.args] in *.
  subst dscope dconf.
  unfold DataTransformation.dt_f, DataTransformation.__call_dt__,
    bind, get_self, get_world, modify_self, raise, ret.
  norm. cbn [negb]. norm. rewrite Hsub. cbn [andb]. norm.
  split; [|split].
  - intros ->. split; reflexivity.
  - intros Hdt Hlen.
    destruct args as [|a0 args0]; [split; reflexivity|].
    cbn [length Nat.eqb]. rewrite Hdt.
    destruct dargs as [|d0 [|d1 dargs]]; cbn [length] in Hlen;
      [split; reflexivity | split; reflexivity | lia].
  - intros x g rest Hpos Hdt Hargs Hkw Hsig.
    destruct args as [|a0 args0]; [contradiction|].
    cbn [length Nat.eqb]. rewrite Hdt. subst dargs.
    cbn [fst snd Self.args DataTransformation.apply_all].
    unfold DataTransformation._apply_dt, bind, get_self, modify_self,
      lift_exn, ret, raise.
    cbn [DataTransformation.as_key]. norm.
    rewrite Dict_mem_get, Hkw.
    destruct (Dict.get LABELS_is_workflow dkw); norm; rewrite Hsig;
      split; reflexivity.
Qed.

End DataTransformationErrors.

(** Three calls by the master: [f()] under [@dt("x", g)]; [f(5)] under a
    [@dt] that holds the parameter name only; [f(5)] under [@dt("y", g)],
    [f] having the one parameter [x]. *)
Lemma dt_definition_errors_witness :
  fst (DataTransformation.dt_f (E := Sample.externals) 0%nat [] []
         (Sample.dt_self, Sample.world MASTER))
  = inl (PyCOMPSsException "Missing arguments in DT decorator.")
  /\ fst (DataTransformation.dt_f (E := Sample.externals) 0%nat [PInt 5] []
            (Sample.decorator "@datatransformation" [PStr "x"] [],
             Sample.world MASTER))
     = inl (PyCOMPSsException "Missing arguments in DT decorator.")
  /\ fst (DataTransformation.dt_f (E := Sample.externals) 0%nat [PInt 5] []
            (Sample.dt_self_y, Sample.world MASTER))
     = inl (Exception "Wrong Param Name in DT").
Proof.
  split; [|split].
  - destruct (dt_definition_errors (E := Sample.externals) Sample.dt_self
                (Sample.world MASTER) 0%nat [] [] eq_refl eq_refl eq_refl)
      as (Hno_args & _ & _).
    exact (proj1 (Hno_args eq_refl)).
  - destruct (dt_definition_errors (E := Sample.externals)
                (Sample.decorator "@datatransformation" [PStr "x"] [])
                (Sample.world MASTER) 0%nat [PInt 5] []
                eq_refl eq_refl eq_refl)
      as (_ & Hfew & _).
    refine (proj1 (Hfew eq_refl _)). cbn. lia.
  - destruct (dt_definition_errors (E := Sample.externals) Sample.dt_self_y
                (Sample.world MASTER) 0%nat [PInt 5] []
                eq_refl eq_refl eq_refl)
      as (_ & _ & Hname).
    refine (proj1 (Hname "y" (PFun 1%nat) [] _ eq_refl eq_refl eq_refl
                     eq_refl)).
    discriminate.
Defined.

(** C8, refuted as stated: [f2(a, **kw)] under [@dt("y", g)] called as
    [f2(1, y=5)].  The signature of [f2] has no parameter [y]; the value is
    taken from the keywords of the call, and [f2] is called with [y=6],
    nothing being raised. *)
Lemma dt_keyword_not_in_signature :
  DataTransformation.index "y"
    (Dict.keys (signature (Externals := Sample.externals) 2%nat)) = None
  /\ fst (DataTransformation.dt_f (E := Sample.externals) 2%nat [PInt 1]
            [("y", PInt 5)] (Sample.dt_self_y, Sample.world MASTER))
     = inr (PList [PList [PInt 1]; PDict [("y", PInt 6)]]).
Proof. split; reflexivity. Qed.

(** * Further properties of the decorators *)

(** ** Data transformations: the call-time [dt] keyword and the roles *)

(** A wrapped call inside its region returns the decorator object it was
    given. *)
Lemma kept_call_self `{E : Externals} (f : fid) (args : tuple) (kwargs : dict)
    (prepend_strings : bool) (s : St) :
  fst (snd (keep_arguments args kwargs prepend_strings
              (on_snd (call_fun f args kwargs)) s)) = fst s.
Proof.
  destruct s as [d w]. unfold keep_arguments, on_snd. cbn [fst snd].
  now destruct (call_fun f args kwargs _).
Qed.

Section DataTransformationRoles.

Context `{E : Externals}.

(** X1. A call-time [dt] keyword that holds neither a [DTObject] nor a
    list is dropped without a word: no transformation is applied, not even
    the one the decorator itself declares, and the function is called on
    the positional arguments as passed and on the keywords without [dt]. *)
Theorem dt_keyword_of_other_type_is_dropped (self : Decorator) (w : World)
    (f : fid) (args : tuple) (kwargs : dict) (v : pyval) :
  Self.scope self = true ->
  Self.core_element_configured self = false ->
  in_master w || is_nesting_enabled w = true ->
  args <> [] ->
  Dict.get "dt" kwargs = Some v ->
  is_DTObject v = false ->
  is_list v = false ->
  DataTransformation.dt_f f args kwargs (self, w)
  = keep_arguments args (Dict.remove "dt" kwargs) true
      (on_snd (call_fun f args (Dict.remove "dt" kwargs)))
      (Self.set_user_function (Some f) self, w).
Proof.
  intros Hscope Hconf Hsub Hpos Hdt Hobj Hlist.
  destruct args as [|a0 args0]; [contradiction|].
  unfold DataTransformation.dt_f, DataTransformation.__call_dt__,
    bind, get_self, get_world, modify_self, raise, ret.
  cbn [fst snd]. rewrite Hscope. cbn [negb fst snd].
  rewrite Hsub, Hconf. cbn [negb andb length Nat.eqb fst snd].
  rewrite Hdt.
  destruct v; try discriminate; reflexivity.
Qed.

(** The elements of a list that are no [DTObject] make [extract] fail. *)
Lemma extract_all_foreign (objs : list pyval) :
  existsb (fun o => negb (is_DTObject o)) objs = true ->
  DataTransformation.extract_all objs
  = inl (AttributeError "object has no attribute 'extract'").
Proof.
  induction objs as [|o objs IH]; cbn [existsb]; [discriminate|].
  intros Hex. destruct o; cbn in Hex |- *; try reflexivity.
  now rewrite (IH Hex).
Qed.

(** X2. A [dt] list that holds anything but [DTObject]s makes the call
    raise [AttributeError] while the list is read: no transformation of
    the list has been applied by then, the function is not called and the
    world is as it was. *)
Theorem dt_list_with_foreign_object (self : Decorator) (w : World)
    (f : fid) (args : tuple) (kwargs : dict) (objs : list pyval) :
  Self.scope self = true ->
  Self.core_element_configured self = false ->
  in_master w || is_nesting_enabled w = true ->
  args <> [] ->
  Dict.get "dt" kwargs = Some (PList objs) ->
  existsb (fun o => negb (is_DTObject o)) objs = true ->
  DataTransformation.dt_f f args kwargs (self, w)
  = (inl (AttributeError "object has no attribute 'extract'"),
     (Self.set_user_function (Some f) self, w)).
Proof.
  intros Hscope Hconf Hsub Hpos Hdt Hex.
  destruct args as [|a0 args0]; [contradiction|].
  unfold DataTransformation.dt_f, DataTransformation.__call_dt__,
    bind, get_self, get_world, modify_self, lift_exn, raise, ret.
  cbn [fst snd]. rewrite Hscope. cbn [negb fst snd].
  rewrite Hsub, Hconf. cbn [negb andb length Nat.eqb fst snd].
  rewrite Hdt, (extract_all_foreign _ Hex). reflexivity.
Qed.


End DataTransformationRoles.

Section DataTransformationObjects.

Context `{E : Externals}.

(** One transformation taken from a [DTObject], on a located value. *)
Lemma apply_dt_of_object (self : Decorator) (w : World) (f : fid)
    (x : string) (g : pyval) (fkw : dict) (args : tuple) (kwargs : dict)
    (p : pyval) :
  Self.user_function self = Some f ->
  Substitution.locate x (signature f) args kwargs = Some p ->
  DataTransformation._apply_dt (PStr x) g (DataTransformation.OfObject fkw)
    args kwargs (self, w)
  = bind (Substitution.transformed g fkw p)
      (fun v => ret (Substitution.substitute x (signature f) args kwargs v))
      (self, w).
Proof.
  intros Hf Hloc.
  unfold DataTransformation._apply_dt, Substitution.transformed,
    Substitution.is_workflow, Substitution.without_flag,
    Substitution.substitute, Substitution.locate in *.
  unfold bind, get_self, modify_self, lift_exn, ret, raise.
  cbn [fst snd DataTransformation.as_key]. rewrite Dict_mem_get.
  destruct (Dict.get LABELS_is_workflow fkw) as [flag|]; cbn [fst snd];
    (destruct (Dict.get x kwargs) as [v|]; cbv beta iota in Hloc;
       cbn [fst snd];
     [ injection Hloc as Hv; subst v
     | rewrite Hf;
       destruct (DataTransformation.index x (Dict.keys (signature f)))
         as [i|]; [|discriminate Hloc]; cbn [fst snd];
       destruct (args !! i) as [v|] eqn:Hi;
       cbv beta iota in Hloc; cbn [fst snd];
       [ injection Hloc as Hv; subst v;
         pose proof (lookup_lt_Some _ _ _ Hi) as Hlt;
         apply Nat.ltb_lt in Hlt; rewrite Hlt
       | pose proof (lookup_ge_None_1 _ _ Hi) as Hge;
         apply Nat.ltb_ge in Hge; rewrite Hge, Hloc ] ]);
    match goal with
    | |- context [(if ?b then ?m1 else ?m2) ?s] =>
        destruct ((if b then m1 else m2) s) as [[e|nv] s']
    | |- context [on_snd ?m ?s] =>
        destruct (on_snd m s) as [[e|nv] s']
    end;
    reflexivity.
Qed.

(** X4. A [DTObject] passed through the call-time keyword [dt] takes the
    place of what the decorator declares: for a call with at least one
    positional argument, the value of the parameter the object names is
    located among the arguments without [dt] (keyword, else position, else
    default), transformed by the object's function with the object's
    keyword arguments, and the function is called on the arguments with
    the result in its place, [dt] gone.  The options of the decorator
    object are not touched. *)
Theorem dt_object_substitutes_value (self : Decorator) (w : World) (f h : fid)
    (x : string) (fkw : dict) (args : tuple) (kwargs : dict) (p : pyval) :
  Self.scope self = true ->
  Self.core_element_configured self = false ->
  in_master w || is_nesting_enabled w = true ->
  args <> [] ->
  Dict.get "dt" kwargs = Some (PDTObject x h fkw) ->
  Substitution.locate x (signature f) args (Dict.remove "dt" kwargs) = Some p ->
  DataTransformation.dt_f f args kwargs (self, w)
  = Substitution.substituted_call x (PFun h) fkw f args
      (Dict.remove "dt" kwargs) p
      (Self.set_user_function (Some f) self, w).
Proof.
  intros Hscope Hconf Hsub Hpos Hdt Hloc.
  destruct args as [|a0 args0]; [contradiction|].
  unfold DataTransformation.dt_f, DataTransformation.__call_dt__,
    Substitution.substituted_call.
  unfold bind at 1 2 3 4, get_self, get_world, modify_self, raise, ret.
  cbn [fst snd]. rewrite Hscope. cbn [negb fst snd].
  rewrite Hsub, Hconf. cbn [negb andb length Nat.eqb fst snd].
  rewrite Hdt. cbn [fst snd]. unfold bind at 1 2.
  cbn [DataTransformation.apply_all]. unfold bind at 1.
  rewrite (apply_dt_of_object (Self.set_user_function (Some f) self) w f x
             (PFun h) fkw _ _ p eq_refl Hloc).
  unfold bind, ret.
  destruct (Substitution.transformed (PFun h) fkw p _) as [[e|nv] s'];
    [reflexivity|].
  cbn [fst snd].
  now destruct (Substitution.substitute x (signature f) (a0 :: args0)
                  (Dict.remove "dt" kwargs) nv).
Qed.

End DataTransformationObjects.

(** ** What a call leaves of the decorator object *)

Section SelfAt.

Context `{E : Externals}.

Lemma self_at_ret {A} (d : Decorator) (a : A) : self_at d d (ret a).
Proof. intros w; reflexivity. Qed.

Lemma self_at_raise {A} (d : Decorator) (e : exn) :
  self_at d d (raise (A := A) e).
Proof. intros w; reflexivity. Qed.

Lemma self_at_lift_exn {A} (d : Decorator) (r : exn + A) :
  self_at d d (lift_exn r).
Proof. intros w; reflexivity. Qed.

Lemma self_at_get_self (d : Decorator) : self_at d d get_self.
Proof. intros w; reflexivity. Qed.

Lemma self_at_get_world (d : Decorator) : self_at d d get_world.
Proof. intros w; reflexivity. Qed.

Lemma self_at_on_snd {A} (d : Decorator) (m : M World A) :
  self_at d d (on_snd m).
Proof. intros w. unfold on_snd. now destruct (m w). Qed.

(** A step that takes the decorator object to [d1], then steps that leave
    it alone. *)
Lemma self_at_bind {A B} (d d1 : Decorator) (m : M St A) (k : A -> M St B) :
  self_at d d1 m -> (forall a, self_at d1 d1 (k a)) -> self_at d d1 (bind m k).
Proof.
  intros Hm Hk w. unfold bind.
  specialize (Hm w). destruct (m (d, w)) as [[e|a] [d2 w2]];
    cbn [fst snd] in Hm; subst d2.
  - reflexivity.
  - apply Hk.
Qed.

Lemma self_at_keep_arguments {A} (d : Decorator) (args : tuple)
    (kwargs : dict) (prepend_strings : bool) (body : M St A) :
  self_at d d body -> self_at d d (keep_arguments args kwargs prepend_strings body).
Proof.
  intros Hb w. unfold keep_arguments. cbn [fst snd].
  specialize (Hb (set_regions ((args, kwargs, prepend_strings) :: regions w) w)).
  destruct (body _) as [r [d1 w1]]. exact Hb.
Qed.

Create HintDb self_at.
#[local] Hint Resolve self_at_ret self_at_raise self_at_lift_exn
  self_at_get_self self_at_get_world self_at_on_snd : self_at.

Ltac keeps :=
  repeat first
    [ solve [auto 1 with self_at nocore]
    | apply self_at_keep_arguments
    | progress cbv zeta
    | match goal with
      | |- self_at _ _ (match ?x with _ => _ end) => destruct x
      | |- self_at _ _ (bind _ _) => apply self_at_bind; [|intros ?]
      end ].

Lemma self_at_call_value (d : Decorator) (func : pyval) (args : tuple)
    (kwargs : dict) :
  self_at d d (DataTransformation.call_value func args kwargs).
Proof. unfold DataTransformation.call_value. keeps. Qed.
#[local] Hint Resolve self_at_call_value : self_at.

(** A transformation taken from the decorator's own arguments leaves the
    decorator object without the workflow flag; one taken from a
    [DTObject] leaves it as it was. *)
Lemma self_at_apply_dt (d : Decorator) (param_name func : pyval)
    (func_kwargs : DataTransformation.kwargs_ref) (args : tuple)
    (kwargs : dict) :
  self_at d
    (match func_kwargs with
     | DataTransformation.OfSelf => flag_popped d
     | DataTransformation.OfObject _ => d
     end)
    (DataTransformation._apply_dt param_name func func_kwargs args kwargs).
Proof.
  intros w. unfold DataTransformation._apply_dt, flag_popped.
  unfold bind at 1 2. unfold get_self at 1. cbn [fst snd].
  destruct func_kwargs as [|fkw].
  - destruct (Dict.get LABELS_is_workflow (Self.kwargs d)) as [flag|].
    + unfold bind at 1, modify_self at 1, ret at 1. cbn [fst snd].
      match goal with
      | |- fst (snd (?m (?d1, w))) = _ =>
          cut (self_at d1 d1 m); [intros H; apply H | keeps]
      end.
    + unfold ret at 1.
      match goal with
      | |- fst (snd (?m (?d1, w))) = _ =>
          cut (self_at d1 d1 m); [intros H; apply H | keeps]
      end.
  - destruct (Dict.get LABELS_is_workflow fkw) as [flag|].
    + unfold bind at 1, ret at 1 2. cbn [fst snd].
      match goal with
      | |- fst (snd (?m (?d1, w))) = _ =>
          cut (self_at d1 d1 m); [intros H; apply H | keeps]
      end.
    + unfold ret at 1.
      match goal with
      | |- fst (snd (?m (?d1, w))) = _ =>
          cut (self_at d1 d1 m); [intros H; apply H | keeps]
      end.
Qed.

(** The single transformation that the decorator's own arguments make. *)
Lemma self_at_apply_one (d : Decorator) (a0 a1 : pyval) (args : tuple)
    (kwargs : dict) :
  self_at d (flag_popped d)
    (DataTransformation.apply_all [(a0, a1, DataTransformation.OfSelf)]
       args kwargs).
Proof.
  cbn [DataTransformation.apply_all].
  apply self_at_bind.
  - apply (self_at_apply_dt d a0 a1 DataTransformation.OfSelf).
  - intros [a k]. apply self_at_ret.
Qed.

(** [d.get(k)] after [del d[k]], the keys of a dictionary being distinct. *)
Lemma Dict_get_remove (k : string) (d : dict) :
  NoDup (Dict.keys d) -> Dict.get k (Dict.remove k d) = None.
Proof.
  induction d as [|[k' v] d IH]; cbn [Dict.keys map fst Dict.remove Dict.get];
    [reflexivity|].
  intros Hnd. apply NoDup_cons in Hnd as [Hnotin Hnd].
  destruct (String.eqb_spec k k') as [->|Hne].
  - clear IH. induction d as [|[k0 v0] d IH]; [reflexivity|].
    cbn [Dict.get]. cbn [map fst] in Hnotin, Hnd.
    apply not_elem_of_cons in Hnotin as [Hne Hnotin].
    apply NoDup_cons in Hnd as [_ Hnd].
    destruct (String.eqb_spec k' k0); [congruence | now apply IH].
  - cbn [Dict.get]. destruct (String.eqb_spec k k'); [contradiction|].
    now apply IH.
Qed.

(** X5. The workflow flag of a decorator serves one call.  A call that
    takes the transformation from the decorator's own arguments (in scope,
    by the master or with nesting enabled, at least one positional
    argument, no [dt] keyword) pops the flag from the decorator's keyword
    arguments before anything else can fail: whatever the call then does,
    the decorator object it leaves holds no flag, so every later call
    submits the transformation as a task; the registration flag is still
    unset. *)
Theorem dt_workflow_flag_is_consumed (self : Decorator) (w : World) (f : fid)
    (args : tuple) (kwargs : dict) (a0 a1 : pyval) (rest : tuple) :
  Self.scope self = true ->
  Self.core_element_configured self = false ->
  in_master w || is_nesting_enabled w = true ->
  args <> [] ->
  Dict.get "dt" kwargs = None ->
  Self.args self = a0 :: a1 :: rest ->
  NoDup (Dict.keys (Self.kwargs self)) ->
  let self1 := fst (snd (DataTransformation.dt_f f args kwargs (self, w))) in
  self1 = flag_popped (Self.set_user_function (Some f) self)
  /\ Dict.get LABELS_is_workflow (Self.kwargs self1) = None
  /\ Substitution.is_workflow (Self.kwargs self1) = false
  /\ Self.core_element_configured self1 = false.
Proof.
  intros Hscope Hconf Hsub Hpos Hdt Hargs Hnd self1.
  assert (H1 : self1 = flag_popped (Self.set_user_function (Some f) self)).
  { subst self1.
    destruct args as [|b0 args0]; [contradiction|].
    unfold DataTransformation.dt_f, DataTransformation.__call_dt__.
    unfold bind at 1 2 3 4 5, get_self at 1, get_world at 1,
      modify_self at 1.
    cbn [fst snd]. rewrite Hscope. cbn [negb fst snd].
    rewrite Hsub, Hconf. cbn [negb andb length Nat.eqb fst snd].
    rewrite Hdt. unfold bind at 1, get_self at 1. cbn [fst snd].
    cbn [Self.set_user_function Self.args]. rewrite Hargs.
    unfold ret at 1.
    pose proof (self_at_apply_one (Self.set_user_function (Some f) self)
                  a0 a1 (b0 :: args0) kwargs w) as Hs.
    match goal with
    | |- context [let (r, s') := ?c in _] =>
        destruct c as [[e|[tmp kw]] [d2 w2]]
    end; cbn [fst snd] in Hs; subst d2; [reflexivity|].
    apply kept_call_self. }
  rewrite H1. unfold flag_popped, Substitution.is_workflow. norm.
  destruct (Dict.get LABELS_is_workflow (Self.kwargs self)) eqn:Hflag; norm.
  - rewrite (Dict_get_remove _ _ Hnd). auto.
  - rewrite Hflag. auto.
Qed.

End SelfAt.

(** [f(5, dt=None)] under [@dt("x", g)] by the master: [f] receives 5 and
    no keyword. *)
Lemma dt_keyword_of_other_type_is_dropped_witness :
  fst (DataTransformation.dt_f (E := Sample.externals) 0%nat [PInt 5]
         [("dt", PNone)] (Sample.dt_self, Sample.world MASTER))
  = inr (PList [PList [PInt 5]; PDict []]).
Proof.
  rewrite (dt_keyword_of_other_type_is_dropped (E := Sample.externals)
             Sample.dt_self (Sample.world MASTER) 0%nat [PInt 5]
             [("dt", PNone)] PNone eq_refl eq_refl eq_refl);
    try reflexivity.
  discriminate.
Defined.

(** [f(5, dt=[1])] by the master. *)
Lemma dt_list_with_foreign_object_witness :
  fst (DataTransformation.dt_f (E := Sample.externals) 0%nat [PInt 5]
         [("dt", PList [PInt 1])] (Sample.dt_self, Sample.world MASTER))
  = inl (AttributeError "object has no attribute 'extract'").
Proof.
  rewrite (dt_list_with_foreign_object (E := Sample.externals)
             Sample.dt_self (Sample.world MASTER) 0%nat [PInt 5]
             [("dt", PList [PInt 1])] [PInt 1] eq_refl eq_refl eq_refl);
    try reflexivity.
  discriminate.
Defined.

(** [f(5, dt=DTObject("x", g))] under a [@dt()] without arguments, by the
    master: [f] receives 6 and no keyword. *)
Lemma dt_object_substitutes_value_witness :
  fst (DataTransformation.dt_f (E := Sample.externals) 0%nat [PInt 5]
         [("dt", PDTObject "x" 1%nat [])]
         (Sample.decorator "@datatransformation" [] [], Sample.world MASTER))
  = inr (PList [PList [PInt 6]; PDict []]).
Proof.
  rewrite (dt_object_substitutes_value (E := Sample.externals)
             (Sample.decorator "@datatransformation" [] [])
             (Sample.world MASTER) 0%nat 1%nat "x" [] [PInt 5]
             [("dt", PDTObject "x" 1%nat [])] (PInt 5)
             eq_refl eq_refl eq_refl);
    try reflexivity.
  discriminate.
Defined.

(** [f(5)] under [@dt("x", g, is_workflow=True)] by the master. *)
Lemma dt_workflow_flag_is_consumed_witness :
  let self :=
    Sample.decorator "@datatransformation" [PStr "x"; PFun 1%nat]
      [("is_workflow", PBool true)] in
  let self1 :=
    fst (snd (DataTransformation.dt_f (E := Sample.externals) 0%nat
                [PInt 5] [] (self, Sample.world MASTER))) in
  Substitution.is_workflow (E := Sample.externals) (Self.kwargs self) = true
  /\ Substitution.is_workflow (E := Sample.externals) (Self.kwargs self1)
     = false.
Proof.
  split; [reflexivity|].
  refine (proj1 (proj2 (proj2
            (dt_workflow_flag_is_consumed (E := Sample.externals)
               (Sample.decorator "@datatransformation"
                  [PStr "x"; PFun 1%nat] [("is_workflow", PBool true)])
               (Sample.world MASTER) 0%nat [PInt 5] [] (PStr "x")
               (PFun 1%nat) [] eq_refl eq_refl eq_refl _ eq_refl eq_refl _)))).
  - discriminate.
  - cbn. repeat constructor. intros H; inversion H.
Defined.

(** ** The module-level set of supported [@mpi] options *)

(** [k in s], as [add] decides it. *)
Lemma existsb_eqb_elem_of (k : string) (s : list string) :
  existsb (String.eqb k) s = true <-> k ∈ s.
Proof.
  rewrite existsb_exists. split.
  - intros (x & Hx & Heq). apply String.eqb_eq in Heq. subst x.
    now apply list_elem_of_In.
  - intros Hk. exists k. split;
      [now apply list_elem_of_In | apply String.eqb_refl].
Qed.

(** Membership in a set after [add]. *)
Lemma set_add_elem_of (k k' : string) (s : list string) :
  k' ∈ set_add k s <-> k' ∈ s \/ k' = k.
Proof.
  unfold set_add. destruct (existsb (String.eqb k) s) eqn:Hex.
  - apply existsb_eqb_elem_of in Hex.
    split; [now left | intros [H| ->]; assumption].
  - rewrite elem_of_app, list_elem_of_singleton. reflexivity.
Qed.

(** [add] keeps a set free of duplicates. *)
Lemma set_add_NoDup (k : string) (s : list string) :
  NoDup s -> NoDup (set_add k s).
Proof.
  intros Hnd. unfold set_add.
  destruct (existsb (String.eqb k) s) eqn:Hex; [exact Hnd|].
  apply NoDup_app. repeat split.
  - exact Hnd.
  - intros x Hx Hk. apply list_elem_of_singleton in Hk. subst x.
    apply existsb_eqb_elem_of in Hx. congruence.
  - apply NoDup_singleton.
Qed.

(** The union of two sets: its members, and no duplicates. *)
Lemma set_union_spec (b : list string) :
  forall a : list string,
    NoDup a ->
    NoDup (set_union a b)
    /\ (forall k, k ∈ set_union a b <-> k ∈ a \/ k ∈ b).
Proof.
  unfold set_union.
  induction b as [|x b IH]; intros a Hnd; cbn [fold_left].
  - split; [exact Hnd|]. intros k. rewrite elem_of_nil. tauto.
  - destruct (IH (set_add x a) (set_add_NoDup x a Hnd)) as [Hnd' Hin].
    split; [exact Hnd'|]. intros k.
    rewrite Hin, set_add_elem_of, elem_of_cons. tauto.
Qed.

Section MPISupported.

Context `{E : Externals}.

(** The loop of [__init__] touches the set of supported options only, and
    adds to it the keys it counts. *)
Lemma count_layouts_world (keys : list string) :
  forall (n : nat) (w : World),
    let w' := snd (MPI.count_layouts keys n w) in
    SUPPORTED_ARGUMENTS w'
    = set_union (SUPPORTED_ARGUMENTS w)
        (List.filter (Str.contains "_layout") keys)
    /\ context w' = context w /\ nesting w' = nesting w
    /\ heap w' = heap w /\ current_core_element w' = current_core_element w
    /\ regions w' = regions w.
Proof.
  induction keys as [|key keys IH]; intros n w;
    cbn [MPI.count_layouts List.filter].
  - cbn. repeat split.
  - destruct (Str.contains "_layout" key).
    + unfold bind, modify. cbv zeta in IH |- *.
      destruct (IH (S n)
                  (set_SUPPORTED_ARGUMENTS
                     (set_add key (SUPPORTED_ARGUMENTS w)) w))
        as (Hs & Hc & Hn & Hh & Hcc & Hr).
      rewrite Hs, Hc, Hn, Hh, Hcc, Hr. repeat split.
    + apply IH.
Qed.

(** X6. Each [@mpi] declaration made in scope adds the option names that
    contain "_layout" to the module-level set of supported arguments, and
    the addition stays whether the declaration is accepted or rejected:
    afterwards the set holds what it held before and those names, nothing
    else, without duplicates; nothing else of the world has changed. *)
Theorem mpi_declaration_extends_supported (args : tuple) (kwargs : dict)
    (w : World) :
  in_pycompss w = true ->
  NoDup (SUPPORTED_ARGUMENTS w) ->
  let w' := snd (MPI.__init__ args kwargs w) in
  NoDup (SUPPORTED_ARGUMENTS w')
  /\ (forall k, k ∈ SUPPORTED_ARGUMENTS w'
                <-> k ∈ SUPPORTED_ARGUMENTS w \/ k ∈ MPI.layout_keys kwargs)
  /\ descriptors w' = descriptors w
  /\ context w' = context w
  /\ regions w' = regions w.
Proof.
  intros Hscope Hnd w'.
  assert (Hw' : w' = snd (MPI.count_layouts (Dict.keys kwargs) 0 w)).
  { subst w'. unfold MPI.__init__, bind, get, lift_exn, ret, raise.
    cbn [PyCOMPSsDecorator_init Self.set_task_type Self.scope Self.kwargs].
    rewrite Hscope.
    destruct (MPI.count_layouts (Dict.keys kwargs) 0 w) as [[e|n] w1];
      [reflexivity|].
    destruct (1 <? n)%nat; [reflexivity|].
    destruct (check_arguments _ _ _ _ _); [reflexivity|].
    destruct (process_computing_nodes "@mpi" kwargs); reflexivity. }
  destruct (count_layouts_world (Dict.keys kwargs) 0 w)
    as (Hs & Hc & _ & Hh & Hcc & Hr).
  rewrite <- Hw' in Hs, Hc, Hh, Hcc, Hr.
  destruct (set_union_spec (MPI.layout_keys kwargs) _ Hnd) as [Hnd' Hin].
  unfold descriptors. rewrite Hs, Hc, Hh, Hcc, Hr.
  repeat split; try assumption; apply Hin.
Qed.

End MPISupported.

(** A declaration with two layouts, rejected, and what it leaves in the
    set. *)
Lemma mpi_declaration_extends_supported_witness :
  let w' :=
    snd (MPI.__init__ (E := Sample.externals) []
           [("runner", PStr "mpirun");
            ("data_layout", PDict [("block_count", PInt 4)]);
            ("out_layout", PDict [("block_count", PInt 2)])]
           (Sample.world MASTER)) in
  "out_layout" ∈ SUPPORTED_ARGUMENTS w' /\ NoDup (SUPPORTED_ARGUMENTS w').
Proof.
  assert (Hnd : NoDup (SUPPORTED_ARGUMENTS (Sample.world MASTER))).
  { cbn. repeat (apply NoDup_cons; split;
                 [rewrite <- existsb_eqb_elem_of; cbn; discriminate|]).
    apply NoDup_nil. constructor. }
  destruct (mpi_declaration_extends_supported (E := Sample.externals) []
              [("runner", PStr "mpirun");
               ("data_layout", PDict [("block_count", PInt 4)]);
               ("out_layout", PDict [("block_count", PInt 2)])]
              (Sample.world MASTER) eq_refl Hnd)
    as (Hnd' & Hin & _).
  split; [|exact Hnd'].
  apply Hin. right. apply existsb_eqb_elem_of. reflexivity.
Defined.

(** ** The layout parameters of an [@mpi] task *)

Section MPILayout.

Context `{E : Externals}.

(** The loop of the body up to a layout option given as a dictionary. *)
Lemma layout_items_app (pre : dict) :
  MPI.layout_keys pre = [] ->
  forall (items : dict) acc s,
    MPI.layout_items (pre ++ items) acc s = MPI.layout_items items acc s.
Proof.
  unfold MPI.layout_keys.
  induction pre as [|[key value] pre IH]; intros Hno items acc s.
  - reflexivity.
  - cbn [Dict.keys map fst List.filter] in Hno.
    cbn [app MPI.layout_items].
    destruct (Str.contains "_layout" key); [discriminate|].
    now apply IH.
Qed.

(** X7. [__resolve_collection_layout_params__], called with its argument
    on a decorator whose options hold one layout, given as a dictionary:
    it raises "Error: collection_layout must contain block_count!" when
    the layout has a block length or a stride other than -1 and no block
    count (or -1); otherwise it returns the part of the option name before
    "_layout" and the texts of block count, block length and stride, "-1"
    standing for each one the dictionary lacks.  The decorator object and
    the world are left as they were. *)
Theorem mpi_single_layout (self : Decorator) (w : World) (actual : dict)
    (pre post : dict) (key : string) (collection_layout : dict) :
  Self.kwargs self = pre ++ (key, PDict collection_layout) :: post ->
  MPI.layout_keys pre = [] ->
  MPI.layout_keys post = [] ->
  Str.contains "_layout" key = true ->
  let block_count := layout_value "block_count" collection_layout in
  let block_length := layout_value "block_length" collection_layout in
  let stride := layout_value "stride" collection_layout in
  MPI.__resolve_collection_layout_params__ [actual] (self, w)
  = (if layout_incomplete block_count block_length stride
     then inl (Exception "Error: collection_layout must contain block_count!")
     else inr [PStr (Str.split_head "_layout" key);
               PStr (py_str block_count); PStr (py_str block_length);
               PStr (py_str stride)],
     (self, w)).
Proof.
  intros Hkw Hpre Hpost Hkey bc bl st.
  unfold MPI.__resolve_collection_layout_params__, bind, lift_exn, get_self.
  cbn [MPI.bind_parameters fst]. rewrite Hkw.
  rewrite (layout_items_app pre Hpre).
  cbn [MPI.layout_items]. rewrite Hkey.
  unfold bind, lift_exn, raise. cbn [MPI.layout_field].
  fold (layout_value "block_count" collection_layout).
  fold (layout_value "block_length" collection_layout).
  fold (layout_value "stride" collection_layout).
  fold bc bl st.
  replace (match Dict.get "block_count" collection_layout with
           | Some v => inr v | None => inr (PInt (-1)) end)
    with (inr (A := exn) bc)
    by (subst bc; unfold layout_value;
        now destruct (Dict.get "block_count" collection_layout)).
  replace (match Dict.get "block_length" collection_layout with
           | Some v => inr v | None => inr (PInt (-1)) end)
    with (inr (A := exn) bl)
    by (subst bl; unfold layout_value;
        now destruct (Dict.get "block_length" collection_layout)).
  replace (match Dict.get "stride" collection_layout with
           | Some v => inr v | None => inr (PInt (-1)) end)
    with (inr (A := exn) st)
    by (subst st; unfold layout_value;
        now destruct (Dict.get "stride" collection_layout)).
  fold (layout_incomplete bc bl st).
  destruct (layout_incomplete bc bl st); [reflexivity|].
  rewrite (layout_items_no_layout post Hpost). reflexivity.
Qed.

End MPILayout.

(** ** Option names and parameter names *)

(** A string is a prefix of itself followed by anything. *)
Lemma prefix_append (s r : string) : String.prefix s (s ++ r) = true.
Proof.
  induction s as [|c s IH]; cbn [String.prefix append].
  - now destruct r.
  - destruct (ascii_dec c c); [exact IH | contradiction].
Qed.

(** No occurrence of "_layout" starts inside a text that has none and
    ends inside a "_layout" that follows it. *)
Lemma layout_no_overlap (q r : string) :
  q <> EmptyString ->
  String.prefix "_layout" q = false ->
  String.prefix "_layout" (q ++ "_layout" ++ r) = false.
Proof.
  intros Hne Hq.
  destruct q as [|c q]; [contradiction|]. clear Hne.
  cbn [String.prefix append] in *.
  repeat match goal with
         | H : true = false |- _ => discriminate H
         | |- false = false => reflexivity
         | |- context [ascii_dec ?a ?b] =>
             destruct (ascii_dec a b) as [Heq|Hneq];
             [ first [discriminate Heq | subst b] | try reflexivity ]
         | H : context [ascii_dec ?a ?b] |- _ =>
             destruct (ascii_dec a b) as [Heq|Hneq];
             [ first [discriminate Heq | subst b] | try contradiction ]
         | H : String.prefix _ ?q = false |- _ =>
             destruct q; cbn [String.prefix append] in *
         end.
Qed.

(** X8. An option named [p_layout...], where [p] itself does not contain
    "_layout", counts as a layout option and names the parameter [p]:
    the name the configuration records is the text before the first
    "_layout", and that first occurrence is the one that follows [p]. *)
Theorem layout_option_names_its_parameter (p r : string) :
  Str.contains "_layout" p = false ->
  Str.contains "_layout" (p ++ "_layout" ++ r) = true
  /\ Str.split_head "_layout" (p ++ "_layout" ++ r) = p.
Proof.
  induction p as [|c p IH]; intros Hno.
  - change (EmptyString ++ "_layout" ++ r)%string with ("_layout" ++ r)%string.
    pose proof (prefix_append "_layout" r) as Hp.
    destruct ("_layout" ++ r)%string eqn:Hs; [discriminate Hs|].
    cbn [Str.contains Str.split_head]. rewrite Hp. split; reflexivity.
  - cbn [Str.contains] in Hno.
    destruct (String.prefix "_layout" (String c p)) eqn:Hpre;
      [discriminate Hno|].
    destruct (IH Hno) as [IHc IHs].
    pose proof (layout_no_overlap (String c p) r ltac:(discriminate) Hpre)
      as Hov.
    change (String c p ++ "_layout" ++ r)%string
      with (String c (p ++ "_layout" ++ r)) in *.
    cbn [Str.contains Str.split_head]. rewrite Hov, IHc, IHs.
    split; reflexivity.
Qed.

(** The option [data_in_layout] names the parameter [data_in]. *)
Lemma layout_option_names_its_parameter_witness :
  Str.contains "_layout" "data_in_layout" = true
  /\ Str.split_head "_layout" "data_in_layout" = "data_in".
Proof.
  exact (layout_option_names_its_parameter "data_in" EmptyString eq_refl).
Defined.

(** The layout of [data], a block count of 4 and a stride of 2. *)
Lemma mpi_single_layout_witness :
  MPI.__resolve_collection_layout_params__ (E := Sample.externals) [[]]
    (Self.set_kwargs
       [("runner", PStr "mpirun");
        ("data_layout", PDict [("block_count", PInt 4); ("stride", PInt 2)]);
        ("processes", PInt 1)]
       Sample.mpi_self,
     Sample.world MASTER)
  = (inr [PStr "data"; PStr "4"; PStr "-1"; PStr "2"],
     (Self.set_kwargs
        [("runner", PStr "mpirun");
         ("data_layout", PDict [("block_count", PInt 4); ("stride", PInt 2)]);
         ("processes", PInt 1)]
        Sample.mpi_self,
      Sample.world MASTER)).
Proof.
  exact (mpi_single_layout (E := Sample.externals)
           (Self.set_kwargs
              [("runner", PStr "mpirun");
               ("data_layout",
                PDict [("block_count", PInt 4); ("stride", PInt 2)]);
               ("processes", PInt 1)]
              Sample.mpi_self)
           (Sample.world MASTER) []
           [("runner", PStr "mpirun")] [("processes", PInt 1)]
           "data_layout" [("block_count", PInt 4); ("stride", PInt 2)]
           eq_refl eq_refl eq_refl eq_refl).
Defined.

(** ** Options the configuration of an [@mpi] task rejects, and the call
    on a worker *)

Section MPIOptions.

Context `{E : Externals}.

(** X9. The configuration of an [@mpi] task reads its options before it
    resolves anything: without a [runner] it raises [KeyError]; with a
    [scale_by_cu] that is neither a boolean nor a string it raises
    "Incorrect format for scale_by_cu property. ...".  In both cases the
    options of the decorator object are as declared (no working directory
    or exit-value policy has been resolved) and the world is untouched. *)
Theorem mpi_configure_rejects_options (self : Decorator) (kwargs : dict)
    (w : World) :
  let r := MPI.__configure_core_element__ kwargs (self, w) in
  (Dict.get "runner" (Self.kwargs self) = None ->
   fst r = inl (KeyError "runner")
   /\ Self.kwargs (fst (snd r)) = Self.kwargs self /\ snd (snd r) = w)
  /\ (forall runner v : pyval,
        Dict.get "runner" (Self.kwargs self) = Some runner ->
        Dict.get "scale_by_cu" (Self.kwargs self) = Some v ->
        is_bool v = false ->
        is_str v = false ->
        fst r
        = inl (Exception
                 "Incorrect format for scale_by_cu property. It should be boolean or an environment variable")
        /\ Self.kwargs (fst (snd r)) = Self.kwargs self /\ snd (snd r) = w).
Proof.
  cbv zeta.
  unfold MPI.__configure_core_element__, bind, get_self, modify_self,
    lift_exn, ret, raise, Dict.getitem.
  cbn [fst snd]. rewrite Dict_mem_get.
  split.
  - intros Hrun.
    destruct (Dict.get "binary" (Self.kwargs self)); cbn [fst snd];
      rewrite Hrun; repeat split.
  - intros runner v Hrun Hscale Hb Hs.
    destruct (Dict.get "binary" (Self.kwargs self)); cbn [fst snd];
      rewrite Hrun, Hscale;
      destruct v; try discriminate; repeat split.
Qed.

(** [k in d] finds what [d.get(k)] returns. *)
Lemma Dict_mem_true (k : string) (d : dict) :
  Dict.mem k d = true -> exists v, Dict.get k d = Some v.
Proof.
  rewrite Dict_mem_get. destruct (Dict.get k d) as [v|]; [eauto | discriminate].
Qed.

(** X10. An [@mpi] task declared in scope always carries a [processes]
    option, so the wrapper never fails for want of one; called where the
    process is not the master, it configures nothing and calls the
    function, in a region that does not prepend strings, on the positional
    arguments as passed and on the keywords with [computing_nodes] set to
    the declared [processes]. *)
Theorem mpi_worker_call (d_args : tuple) (d_kwargs : dict) (w0 w0' : World)
    (self : Decorator) (func : fid) (args : tuple) (kwargs : dict)
    (w : World) :
  in_pycompss w0 = true ->
  MPI.__init__ d_args d_kwargs w0 = (inr self, w0') ->
  in_master w = false ->
  exists processes : pyval,
    Dict.get "processes" (Self.kwargs self) = Some processes
    /\ MPI.mpi_f func args kwargs (self, w)
       = keep_arguments args (Dict.set "computing_nodes" processes kwargs)
           false
           (on_snd (call_fun func args
                      (Dict.set "computing_nodes" processes kwargs)))
           (self, w).
Proof.
  intros Hscope Hinit Hworker.
  destruct (mpi_init_in_scope _ _ _ _ _ Hscope Hinit) as (kw1 & _ & Hself).
  assert (Hp : exists p, Dict.get "processes" (Self.kwargs self) = Some p).
  { subst self. cbn [Self.set_kwargs Self.kwargs].
    destruct (Dict.mem "processes" kw1) eqn:Hmem; cbn [negb].
    - now apply Dict_mem_true.
    - exists (PInt 1). apply Dict_get_set. }
  destruct Hp as [p Hp]. exists p. split; [exact Hp|].
  assert (Hsc : Self.scope self = true) by (subst self; exact Hscope).
  assert (Hty : Self.task_type self = "mpi") by (subst self; reflexivity).
  unfold MPI.mpi_f, bind, get_self, get_world, lift_exn, ret, Dict.getitem.
  cbn [fst snd]. rewrite Hsc. cbn [negb fst snd]. rewrite Hworker.
  cbn [fst snd]. rewrite Hp, Hty. reflexivity.
Qed.

End MPIOptions.

(** [@mpi(runner="mpirun", scale_by_cu=2)]: the configuration rejects the
    number. *)
Lemma mpi_configure_rejects_options_witness :
  fst (MPI.__configure_core_element__ (E := Sample.externals) []
         (Self.set_kwargs
            [("runner", PStr "mpirun"); ("scale_by_cu", PInt 2)]
            Sample.mpi_self,
          Sample.world MASTER))
  = inl (Exception
           "Incorrect format for scale_by_cu property. It should be boolean or an environment variable").
Proof.
  refine (proj1 (proj2 (mpi_configure_rejects_options (E := Sample.externals)
                          (Self.set_kwargs
                             [("runner", PStr "mpirun");
                              ("scale_by_cu", PInt 2)]
                             Sample.mpi_self)
                          [] (Sample.world MASTER))
                   (PStr "mpirun") (PInt 2) eq_refl eq_refl eq_refl eq_refl)).
Defined.

(** The task [@mpi(runner="mpirun")] of the master, called on a worker:
    the function receives [computing_nodes=1]. *)
Lemma mpi_worker_call_witness :
  fst (MPI.mpi_f (E := Sample.externals) 0%nat [PInt 5] []
         (Sample.mpi_self, Sample.world WORKER))
  = inr (PList [PList [PInt 5]; PDict [("computing_nodes", PInt 1)]]).
Proof.
  destruct (mpi_worker_call (E := Sample.externals) []
              [("runner", PStr "mpirun")] (Sample.world MASTER)
              (Sample.world MASTER) Sample.mpi_self 0%nat [PInt 5] []
              (Sample.world WORKER) eq_refl eq_refl eq_refl)
    as (p & Hp & Hcall).
  rewrite Hcall. injection Hp as <-. reflexivity.
Defined.

(** ** Printing a core element *)

Section CoreElementText.

Context `{E : Externals}.


End CoreElementText.

(** * Properties of the remote client *)

(** ** Text *)

Section TextFacts.

Import Text.

Lemma split_not_nil (sep : ascii) (s : string) : split sep s <> [].
Proof.
  destruct s as [|c s]; cbn [split]; [discriminate|].
  destruct (Ascii.eqb c sep); [discriminate|].
  destruct (split sep s); discriminate.
Qed.

(** Splitting after a text that does not hold the separator. *)
Lemma split_app_no_sep (sep : ascii) (a b : string) :
  has_char sep a = false ->
  split sep (a ++ b)
  = match split sep b with
    | h :: t => (a ++ h)%string :: t
    | [] => [a]
    end.
Proof.
  induction a as [|c a IH]; cbn [has_char append split]; intros Hno.
  - destruct (split sep b) eqn:Hs; [now apply split_not_nil in Hs|].
    reflexivity.
  - apply orb_false_iff in Hno as [Hc Ha].
    rewrite Hc, (IH Ha).
    destruct (split sep b) eqn:Hs; [now apply split_not_nil in Hs|].
    reflexivity.
Qed.

(** Splitting at a separator. *)
Lemma split_app_sep (sep : ascii) (a b : string) :
  split sep (a ++ String sep b) = split sep a ++ split sep b.
Proof.
  induction a as [|c a IH]; cbn [append split].
  - now rewrite Ascii.eqb_refl.
  - destruct (Ascii.eqb c sep); [now rewrite IH|].
    rewrite IH. destruct (split sep a) eqn:Hs; [|reflexivity].
    now apply split_not_nil in Hs.
Qed.

(** [sep.join(s.split(sep)) == s] *)
Lemma concat_split (sep : ascii) (s : string) :
  String.concat (String sep EmptyString) (split sep s) = s.
Proof.
  induction s as [|c s IH]; cbn [split]; [reflexivity|].
  destruct (Ascii.eqb_spec c sep) as [->|Hne].
  - destruct (split sep s) as [|h t] eqn:Hs; [now apply split_not_nil in Hs|].
    cbn [String.concat append] in *. now rewrite IH.
  - destruct (split sep s) as [|h t] eqn:Hs; [now apply split_not_nil in Hs|].
    destruct t; cbn [String.concat append] in *; now rewrite IH.
Qed.

Lemma rstrip_with_app (drop : ascii -> bool) (a b : string) :
  rstrip_with drop b <> EmptyString ->
  rstrip_with drop (a ++ b) = (a ++ rstrip_with drop b)%string.
Proof.
  intros Hb. induction a as [|c a IH]; cbn [append rstrip_with]; [reflexivity|].
  rewrite IH. destruct a; cbn [append]; [|reflexivity].
  destruct (rstrip_with drop b); [contradiction | reflexivity].
Qed.

Lemma head_of_path_app (a b : string) :
  head_of_path b <> EmptyString ->
  head_of_path (a ++ b) = (a ++ head_of_path b)%string.
Proof.
  intros Hb. induction a as [|c a IH]; cbn [append head_of_path];
    [reflexivity|].
  rewrite IH. destruct a; cbn [append]; [|reflexivity].
  destruct (head_of_path b); [contradiction | reflexivity].
Qed.

Lemma all_slashes_app (a b : string) :
  all_slashes (a ++ b) = all_slashes a && all_slashes b.
Proof.
  induction a as [|c a IH]; cbn [append all_slashes]; [reflexivity|].
  now rewrite IH, andb_assoc.
Qed.

Lemma lstrip_length (s : string) : (String.length (lstrip s) <= String.length s)%nat.
Proof.
  induction s as [|c s IH]; cbn [lstrip String.length]; [lia|].
  destruct (is_space c); cbn [String.length]; lia.
Qed.

(** A text that [lstrip] leaves alone is left alone with more behind it,
    when what comes behind does not start with a space. *)
Lemma lstrip_app (a b : string) :
  lstrip a = a -> lstrip b = b -> lstrip (a ++ b) = (a ++ b)%string.
Proof.
  intros Ha Hb. destruct a as [|c a]; [exact Hb|].
  cbn [append lstrip] in *. destruct (is_space c); [|reflexivity].
  pose proof (lstrip_length a) as Hl. rewrite Ha in Hl.
  cbn [String.length] in Hl. lia.
Qed.

Lemma drop_last_app {A} (l tail : list A) :
  drop_last (length tail) (l ++ tail) = l.
Proof.
  unfold drop_last. rewrite length_app.
  replace (length l + length tail - length tail)%nat with (length l) by lia.
  now rewrite firstn_app, firstn_all, Nat.sub_diag, firstn_0, app_nil_r.
Qed.

End TextFacts.

(** ** The remote commands *)

Section RemoteFacts.

Import Remote.
Context `{D : Defaults}.

(** What a blocking remote run gives where the client is not on Windows:
    the command line is printed and run. *)
Lemma run_remote_posix (cmd : list string) (login_info : string)
    (modules_path : option string) (t : Terminal)
    (out : Z * string * string) (sys' : System) :
  is_windows = false ->
  communicate (Line (remote_line cmd login_info modules_path)) (system t)
  = (out, sys') ->
  run_remote cmd login_info modules_path t
  = (inr out,
     mkTerminal (printed t ++ [remote_line cmd login_info modules_path])
       (ALIVE_PROCESSES t) sys').
Proof.
  intros Hwin Hrun. unfold run_remote, _command_runner.
  rewrite Hwin. cbn [print system printed ALIVE_PROCESSES].
  rewrite Hrun. reflexivity.
Qed.

(** X12. Where [which enqueue_compss] answers with the path of the script
    under an installation at [P] (return code 0, the one line
    [P/Runtime/scripts/user/enqueue_compss]), [_check_remote_compss]
    returns [P] itself, for every [P] without a line feed that does not
    start with a white space; the helper scripts are then looked for under
    [P/Runtime/scripts/system/cli].  Nothing but the command line is
    printed. *)
Theorem compss_path_from_which (login_info : string)
    (modules_path : option string) (t : Terminal) (P stderr : string)
    (sys' : System) :
  is_windows = false ->
  communicate
    (Line (remote_line ["which"; "enqueue_compss"] login_info modules_path))
    (system t)
  = ((0%Z,
      (P ++ "/Runtime/scripts/user/enqueue_compss"
         ++ String (ascii_of_nat 10) EmptyString)%string,
      stderr), sys') ->
  Text.has_char (ascii_of_nat 10) P = false ->
  Text.lstrip P = P ->
  _check_remote_compss login_info modules_path t
  = (inr P,
     mkTerminal
       (printed t
          ++ [remote_line ["which"; "enqueue_compss"] login_info modules_path])
       (ALIVE_PROCESSES t) sys')
  /\ _infer_scripts_path P = (P ++ "/Runtime/scripts/system/cli")%string.
Proof.
  intros Hwin Hrun Hnl Hls. split; [|reflexivity].
  unfold _check_remote_compss.
  rewrite (run_remote_posix _ _ _ _ _ _ Hwin Hrun).
  cbn [Z.eqb negb].
  replace (String.eqb _ EmptyString) with false by (now destruct P).
  (* strip *)
  assert (Hstrip :
            Text.strip
              (P ++ "/Runtime/scripts/user/enqueue_compss"
                 ++ String (ascii_of_nat 10) EmptyString)
            = (P ++ "/Runtime/scripts/user/enqueue_compss")%string).
  { unfold Text.strip.
    rewrite (lstrip_app P _ Hls eq_refl).
    rewrite rstrip_with_app; [reflexivity | discriminate]. }
  rewrite Hstrip.
  (* the last line *)
  rewrite (split_app_no_sep _ P _ Hnl).
  change (Text.split (ascii_of_nat 10) "/Runtime/scripts/user/enqueue_compss")
    with ["/Runtime/scripts/user/enqueue_compss"].
  cbn [Text.last_item map List.last].
  (* dirname *)
  assert (Hdir :
            Text.dirname (P ++ "/Runtime/scripts/user/enqueue_compss")
            = (P ++ "/Runtime/scripts/user")%string).
  { unfold Text.dirname.
    rewrite head_of_path_app by discriminate.
    change (Text.head_of_path "/Runtime/scripts/user/enqueue_compss")
      with "/Runtime/scripts/user/".
    rewrite all_slashes_app.
    change (Text.all_slashes "/Runtime/scripts/user/") with false.
    rewrite andb_false_r.
    replace (String.eqb _ EmptyString) with false by (now destruct P).
    cbn [negb andb].
    rewrite rstrip_with_app; [reflexivity | discriminate]. }
  rewrite Hdir.
  (* the last three folders *)
  change (P ++ "/Runtime/scripts/user")%string
    with (P ++ String "/" "Runtime/scripts/user")%string.
  rewrite split_app_sep.
  change (Text.split "/" "Runtime/scripts/user")
    with ["Runtime"; "scripts"; "user"].
  pose proof (drop_last_app (Text.split "/" P)
                ["Runtime"; "scripts"; "user"]) as Hdrop.
  cbn [length] in Hdrop. rewrite Hdrop.
  rewrite (concat_split "/" P). reflexivity.
Qed.


(** The last two items of a list. *)
Lemma last_two_app {A} (pre : list A) (a b : A) :
  last_two (pre ++ [a; b]) = Some (a, b).
Proof.
  unfold last_two. rewrite rev_app_distr. reflexivity.
Qed.

Lemma last_two_short {A} (l : list A) :
  (length l < 2)%nat -> last_two l = None.
Proof.
  destruct l as [|x [|y l]]; cbn [length]; intros Hlen;
    [reflexivity | reflexivity | lia].
Qed.

(** A text without the separator is one field. *)
Lemma split_no_sep (sep : ascii) (s : string) :
  Text.has_char sep s = false -> Text.split sep s = [s].
Proof.
  induction s as [|c s IH]; cbn [Text.has_char Text.split]; intros Hno;
    [reflexivity|].
  apply orb_false_iff in Hno as [Hc Hs]. now rewrite Hc, (IH Hs).
Qed.

(** X13. [job_status] never looks at the return code of the status
    script: its answer is read off the last two lines of the output.  With
    fewer than two lines (an empty output, as when the command could not
    run) it raises [IndexError]; when the line before the last is the
    success keyword and the last line is [key:status], it returns
    [status]; when the line before the last is anything else it returns
    the text [ERROR_STATUS_JOB] as if it were a status. *)
Theorem job_status_answer (scripts_path job_id login_info : string)
    (modules_path : option string) (t : Terminal)
    (return_code : Z) (stdout stderr : string) (sys' : System) :
  is_windows = false ->
  communicate
    (Line (remote_line
             [INTERPRETER; (scripts_path ++ "/" ++ STATUS_SCRIPT)%string; job_id]
             login_info modules_path))
    (system t)
  = ((return_code, stdout, stderr), sys') ->
  let r := fst (job_status scripts_path job_id login_info modules_path t) in
  ((length (Text.splitlines stdout) < 2)%nat -> r = inl IndexError)
  /\ (forall (pre : list string) (key status : string),
        Text.splitlines stdout
        = pre ++ [SUCCESS_KEYWORD; (key ++ ":" ++ status)%string] ->
        Text.has_char ":" key = false ->
        Text.has_char ":" status = false ->
        r = inr status)
  /\ (forall (pre : list string) (before_last last : string),
        Text.splitlines stdout = pre ++ [before_last; last] ->
        before_last <> SUCCESS_KEYWORD ->
        r = inr ERROR_STATUS_JOB).
Proof.
  intros Hwin Hrun r. subst r. unfold job_status.
  rewrite (run_remote_posix _ _ _ _ _ _ Hwin Hrun).
  split; [|split].
  - intros Hlen. now rewrite (last_two_short _ Hlen).
  - intros pre key status Hout Hkey Hstatus.
    rewrite Hout, last_two_app, String.eqb_refl.
    rewrite (split_app_no_sep ":" key _ Hkey).
    change (":" ++ status)%string with (String ":" status).
    cbn [Text.split]. rewrite (split_no_sep ":" status Hstatus).
    reflexivity.
  - intros pre before_last last Hout Hne.
    rewrite Hout, last_two_app.
    destruct (String.eqb_spec before_last SUCCESS_KEYWORD);
      [contradiction | reflexivity].
Qed.

(** What [print] in a loop leaves behind. *)
Lemma fold_print (lines : list string) :
  forall t : Terminal,
    fold_left (fun t line => print line t) lines t
    = mkTerminal (printed t ++ lines) (ALIVE_PROCESSES t) (system t).
Proof.
  induction lines as [|l lines IH]; intros t; cbn [fold_left].
  - rewrite app_nil_r. now destruct t.
  - rewrite IH. cbn [print printed ALIVE_PROCESSES system].
    now rewrite <- app_assoc.
Qed.

(** X14. [cancel_job] returns normally in one case only: the cancel script
    returned 0 and the first line of its output is the success keyword;
    it has then printed "Jobs successfully cancelled." after the command
    line.  A return code other than 0, or a first line other than the
    keyword, ends the program with status 1; a return code 0 with no
    output at all raises [IndexError]. *)
Theorem cancel_job_outcomes (scripts_path : string) (job_ids : list string)
    (login_info : string) (modules_path : option string) (t : Terminal)
    (return_code : Z) (stdout stderr : string) (sys' : System) :
  is_windows = false ->
  communicate
    (Line (remote_line
             ([INTERPRETER; (scripts_path ++ "/" ++ CANCEL_SCRIPT)%string]
                ++ job_ids)
             login_info modules_path))
    (system t)
  = ((return_code, stdout, stderr), sys') ->
  let r := cancel_job scripts_path job_ids login_info modules_path t in
  (fst r = inr tt
   <-> return_code = 0%Z
       /\ exists rest, Text.splitlines stdout = SUCCESS_KEYWORD :: rest)
  /\ (fst r = inr tt ->
      printed (snd r)
      = printed t
          ++ [remote_line
                ([INTERPRETER; (scripts_path ++ "/" ++ CANCEL_SCRIPT)%string]
                   ++ job_ids)
                login_info modules_path;
              "Jobs successfully cancelled."])
  /\ (return_code <> 0%Z -> fst r = inl (SystemExit 1))
  /\ (return_code = 0%Z -> Text.splitlines stdout = [] ->
      fst r = inl IndexError)
  /\ (forall first rest,
        return_code = 0%Z -> Text.splitlines stdout = first :: rest ->
        first <> SUCCESS_KEYWORD -> fst r = inl (SystemExit 1)).
Proof.
  intros Hwin Hrun r. subst r. unfold cancel_job.
  rewrite (run_remote_posix _ _ _ _ _ _ Hwin Hrun).
  destruct (Z.eqb_spec return_code 0) as [->|Hrc]; cbn [negb].
  - destruct (Text.splitlines stdout) as [|first rest] eqn:Hout.
    + cbn [fst snd].
      split; [split; [discriminate | intros [_ [rest Hr]]; discriminate Hr]|].
      split; [discriminate|].
      split; [intros Hz; now contradiction Hz|].
      split; [reflexivity|].
      intros first rest _ Hr. discriminate Hr.
    + destruct (String.eqb_spec first SUCCESS_KEYWORD) as [->|Hne].
      * cbn [fst snd print printed].
        split; [split; [eauto | reflexivity]|].
        split; [intros _; now rewrite <- app_assoc|].
        split; [intros Hz; now contradiction Hz|].
        split; [discriminate|].
        intros f r0 _ [= <- _] Hf. now contradiction Hf.
      * unfold __display_error. cbn [fst snd].
        split; [split; [discriminate | intros [_ [r0 [= Hf _]]]; contradiction]|].
        split; [discriminate|].
        split; [intros Hz; now contradiction Hz|].
        split; [discriminate|].
        reflexivity.
  - unfold __display_error. cbn [fst snd].
    split; [split; [discriminate | intros [Hz _]; contradiction]|].
    split; [discriminate|].
    split; [reflexivity|].
    split; [intros Hz; contradiction|].
    intros first rest Hz. contradiction.
Qed.

(** X15. [job_list]: when the find script returns 0 and its first line is
    the success keyword, the client prints the command line, the header
    and then every further line of the output, in the order of the
    output and nothing else; no process is left running. *)
Theorem job_list_prints_every_job (scripts_path login_info : string)
    (modules_path : option string) (t : Terminal)
    (stdout stderr : string) (job_ids : list string) (sys' : System) :
  is_windows = false ->
  communicate
    (Line (remote_line
             [INTERPRETER; (scripts_path ++ "/" ++ FIND_SCRIPT)%string]
             login_info modules_path))
    (system t)
  = ((0%Z, stdout, stderr), sys') ->
  Text.splitlines stdout = SUCCESS_KEYWORD :: job_ids ->
  job_list scripts_path login_info modules_path t
  = (inr tt,
     mkTerminal
       (printed t
          ++ [remote_line
                [INTERPRETER; (scripts_path ++ "/" ++ FIND_SCRIPT)%string]
                login_info modules_path;
              "Available notebooks: "]
          ++ job_ids)
       (ALIVE_PROCESSES t) sys').
Proof.
  intros Hwin Hrun Hout. unfold job_list.
  rewrite (run_remote_posix _ _ _ _ _ _ Hwin Hrun).
  cbn [Z.eqb negb]. rewrite Hout, String.eqb_refl, fold_print.
  cbn [print printed ALIVE_PROCESSES system].
  now rewrite <- !app_assoc.
Qed.

(** X16. On Windows no remote command is run: checking the installation,
    asking for the status of a job, listing the jobs and cancelling jobs
    all raise [NotImplementedError] before anything is printed or
    started. *)
Theorem windows_client_runs_nothing (scripts_path job_id login_info : string)
    (job_ids : list string) (modules_path : option string) (t : Terminal) :
  is_windows = true ->
  _check_remote_compss login_info modules_path t = (inl NotImplemented, t)
  /\ job_status scripts_path job_id login_info modules_path t
     = (inl NotImplemented, t)
  /\ job_list scripts_path login_info modules_path t
     = (inl NotImplemented, t)
  /\ cancel_job scripts_path job_ids login_info modules_path t
     = (inl NotImplemented, t).
Proof.
  intros Hwin.
  unfold _check_remote_compss, job_status, job_list, cancel_job, run_remote,
    _command_runner.
  rewrite Hwin. repeat split; reflexivity.
Qed.

End RemoteFacts.

Lemma compss_path_from_which_witness :
  Remote._check_remote_compss (D := RemoteSample.posix) "user@mn1.bsc.es" None
    (RemoteSample.terminal false)
  = (inr "/apps/COMPSs/3.0",
     Remote.mkTerminal (D := RemoteSample.posix)
       ["ssh user@mn1.bsc.es which enqueue_compss"] [] tt).
Proof.
  exact (proj1 (compss_path_from_which (D := RemoteSample.posix)
                  "user@mn1.bsc.es" None
                  (RemoteSample.terminal false)
                  "/apps/COMPSs/3.0" EmptyString tt
                  eq_refl eq_refl eq_refl eq_refl)).
Defined.

Lemma job_status_answer_witness :
  fst (Remote.job_status (D := RemoteSample.posix)
         "/apps/COMPSs/3.0/Runtime/scripts/system/cli" "1234"
         "user@mn1.bsc.es" None (RemoteSample.terminal false))
  = inr "RUNNING".
Proof.
  destruct (job_status_answer (D := RemoteSample.posix)
              "/apps/COMPSs/3.0/Runtime/scripts/system/cli" "1234"
              "user@mn1.bsc.es" None
              (RemoteSample.terminal false)
              0%Z ("SUCCESS" ++ RemoteSample.nl ++ "STATUS:RUNNING"
                     ++ RemoteSample.nl)%string
              EmptyString tt eq_refl eq_refl)
    as (_ & Hstatus & _).
  exact (Hstatus [] "STATUS" "RUNNING" eq_refl eq_refl eq_refl).
Defined.

Lemma cancel_job_outcomes_witness :
  fst (Remote.cancel_job (D := RemoteSample.posix)
         "/apps/COMPSs/3.0/Runtime/scripts/system/cli" ["1234"; "5678"]
         "user@mn1.bsc.es" None (RemoteSample.terminal false))
  = inr tt.
Proof.
  destruct (cancel_job_outcomes (D := RemoteSample.posix)
              "/apps/COMPSs/3.0/Runtime/scripts/system/cli" ["1234"; "5678"]
              "user@mn1.bsc.es" None
              (RemoteSample.terminal false)
              0%Z ("SUCCESS" ++ RemoteSample.nl)%string EmptyString tt
              eq_refl eq_refl)
    as (Hok & _).
  exact (proj2 Hok (conj eq_refl (ex_intro _ [] eq_refl))).
Defined.

Lemma job_list_prints_every_job_witness :
  Remote.job_list (D := RemoteSample.posix)
    "/apps/COMPSs/3.0/Runtime/scripts/system/cli" "user@mn1.bsc.es" None
    (RemoteSample.terminal false)
  = (inr tt,
     Remote.mkTerminal (D := RemoteSample.posix)
       ["ssh user@mn1.bsc.es python3 /apps/COMPSs/3.0/Runtime/scripts/system/cli/find.py";
        "Available notebooks: "; "1234"; "5678"] [] tt).
Proof.
  exact (job_list_prints_every_job (D := RemoteSample.posix)
           "/apps/COMPSs/3.0/Runtime/scripts/system/cli" "user@mn1.bsc.es"
           None (RemoteSample.terminal false)
           ("SUCCESS" ++ RemoteSample.nl ++ "1234" ++ RemoteSample.nl
              ++ "5678" ++ RemoteSample.nl)%string
           EmptyString ["1234"; "5678"] tt eq_refl eq_refl eq_refl).
Defined.

Lemma windows_client_runs_nothing_witness :
  Remote.job_list (D := RemoteSample.windows)
    "/apps/COMPSs/3.0/Runtime/scripts/system/cli" "user@mn1.bsc.es" None
    (RemoteSample.terminal true)
  = (inl Remote.NotImplemented, RemoteSample.terminal true).
Proof.
  exact (proj1 (proj2 (proj2
           (windows_client_runs_nothing (D := RemoteSample.windows)
              "/apps/COMPSs/3.0/Runtime/scripts/system/cli" "1234"
              "user@mn1.bsc.es" ["1234"] None
              (RemoteSample.terminal true) eq_refl)))).
Defined.
